(** * structvalidator: rule model, rule parser and validation engine

    A shallow embedding of [validator.go] (Validate, setValidationFromTags,
    setValidationFromSuffix, isInt, getFieldTagValues) and of the
    [ValueValidation] type with its method [ValidateReflectValue].

    Go's [int] is taken to be 64 bits wide.  Strings are byte strings, so
    [String.length] is Go's [len].  A panic is an explicit outcome of the
    [Result] type.  The object given to [Validate] is taken to be a pointer
    to a struct, presented by its fields and their stored values; the
    special case of an object that is itself a [reflect.Value] is left
    out. *)

From Stdlib Require Import ZArith Ascii String List Bool Lia.
From stdpp Require Import base gmap strings.

Local Open Scope string_scope.
Local Open Scope Z_scope.

#[local] Arguments String.append !_ _ / : simpl nomatch.

(** ** Outcomes: a value or a panic *)

Inductive Kind : Set :=
| Invalid | Bool | Int | Int8 | Int16 | Int32 | Int64
| Uint | Uint8 | Uint16 | Uint32 | Uint64 | Uintptr
| Float32 | Float64 | Complex64 | Complex128
| Array | Chan | Func | Interface | Map | Pointer | Slice
| String_ | Struct | UnsafePointer.

#[global] Instance Kind_eq_dec : EqDecision Kind.
Proof. solve_decision. Defined.

(** What a panic carries: the message of [Validate]'s own panic, the pattern
    [regexp.MustCompile] rejected, or the method and kind of a
    [reflect.ValueError]. *)
Inductive PanicValue : Type :=
| PanicMsg (msg : string)
| PanicRegexp (pattern : string)
| PanicValueError (method : string) (k : Kind).

Inductive Result (A : Type) : Type :=
| Ok (a : A)
| Panic (p : PanicValue).
Arguments Ok {A} a.
Arguments Panic {A} p.

Definition bind {A B} (r : Result A) (f : A -> Result B) : Result B :=
  match r with
  | Ok a => f a
  | Panic p => Panic p
  end.

Notation "'let*' x := c 'in' k" := (bind c (fun x => k))
  (at level 10, x name, c at level 100, k at level 200).

(** A loop whose body may panic: [for _, x := range xs { s = body(s, x) }]. *)
Fixpoint forRange {S A} (body : S -> A -> Result S) (xs : list A) (s : S)
  : Result S :=
  match xs with
  | [] => Ok s
  | x :: xs' => let* s' := body s x in forRange body xs' s'
  end.

Definition panics {A} (r : Result A) : Prop := exists p, r = Panic p.

(** ** The parts of Go's [strings] and [strconv] the validator calls *)

Module Strings.

Fixpoint HasPrefix (s prefix : string) {struct prefix} : bool :=
  match prefix, s with
  | EmptyString, _ => true
  | String p prefix', String c s' =>
      if Ascii.eqb c p then HasPrefix s' prefix' else false
  | String _ _, EmptyString => false
  end.

Fixpoint drop (n : nat) (s : string) : string :=
  match n, s with
  | O, _ => s
  | S n', String _ s' => drop n' s'
  | S _, EmptyString => EmptyString
  end.

(** [s[len(s)-len(suffix):] == suffix], guarded by the length test. *)
Definition HasSuffix (s suffix : string) : bool :=
  (String.length suffix <=? String.length s)%nat
  && String.eqb (drop (String.length s - String.length suffix) s) suffix.

(** [strings.Replace(s, old, new, 1)]: the first occurrence only. *)
Fixpoint Replace1 (s old new : string) : string :=
  if HasPrefix s old then new +:+ drop (String.length old) s
  else match s with
       | EmptyString => EmptyString
       | String c s' => String c (Replace1 s' old new)
       end.

(** [strings.SplitN(s, " ", -1)]: every substring between single spaces;
    the empty string yields one empty substring. *)
Fixpoint SplitSpace (s : string) : list string :=
  match s with
  | EmptyString => [EmptyString]
  | String c s' =>
      if Ascii.eqb c " " then EmptyString :: SplitSpace s'
      else match SplitSpace s' with
           | t :: ts => String c t :: ts
           | [] => [String c EmptyString]
           end
  end.

(** [strings.Join(ts, " ")]. *)
Fixpoint JoinSpace (ts : list string) : string :=
  match ts with
  | [] => EmptyString
  | [t] => t
  | t :: ts' => t +:+ String " " (JoinSpace ts')
  end.

End Strings.

Module Strconv.

Definition intSize : Z := 64.

Definition digit (c : ascii) : option Z :=
  let n := Z.of_nat (nat_of_ascii c) in
  if (48 <=? n) && (n <=? 57) then Some (n - 48) else None.

(** The decimal value of a string of digits, most significant first. *)
Fixpoint digits (acc : Z) (s : string) : option Z :=
  match s with
  | EmptyString => Some acc
  | String c s' =>
      match digit c with
      | Some d => digits (acc * 10 + d) s'
      | None => None
      end
  end.

(** [strconv.Atoi]: an optional sign, then at least one decimal digit;
    [None] stands for a non-nil error (syntax or range). *)
Definition Atoi (s0 : string) : option Z :=
  match s0 with
  | EmptyString => None
  | String c s' =>
      let s := if Ascii.eqb c "-" || Ascii.eqb c "+" then s' else s0 in
      match s with
      | EmptyString => None
      | _ =>
          match digits 0 s with
          | Some n =>
              let i := if Ascii.eqb c "-" then - n else n in
              if (- 2 ^ (intSize - 1) <=? i) && (i <=? 2 ^ (intSize - 1) - 1)
              then Some i else None
          | None => None
          end
      end
  end.

End Strconv.

(** ** The regular-expression library

    Go's [regexp] package is outside the repository: its compiler and its
    matcher are parameters.  [Compile] returns [None] where Go's
    [regexp.Compile] returns an error. *)

Module Regexp.

Class Engine : Type := {
  Regexp : Type;
  Compile : string -> option Regexp;
  MatchString : Regexp -> string -> bool
}.

(** [regexp.MustCompile] panics where [Compile] fails. *)
Definition MustCompile `{engine : Engine} (str : string) : Result Regexp :=
  match Compile str with
  | Some re => Ok re
  | None => Panic (PanicRegexp str)
  end.

End Regexp.

(** ** The parts of Go's [reflect] the validator calls *)

Module Reflect.

(** [Kind.String()]. *)
Definition kindName (k : Kind) : string :=
  match k with
  | Invalid => "invalid" | Bool => "bool"
  | Int => "int" | Int8 => "int8" | Int16 => "int16"
  | Int32 => "int32" | Int64 => "int64"
  | Uint => "uint" | Uint8 => "uint8" | Uint16 => "uint16"
  | Uint32 => "uint32" | Uint64 => "uint64" | Uintptr => "uintptr"
  | Float32 => "float32" | Float64 => "float64"
  | Complex64 => "complex64" | Complex128 => "complex128"
  | Array => "array" | Chan => "chan" | Func => "func"
  | Interface => "interface" | Map => "map" | Pointer => "ptr"
  | Slice => "slice" | String_ => "string" | Struct => "struct"
  | UnsafePointer => "unsafe.Pointer"
  end.

(** A [reflect.Type]: [Name()] (empty for an unnamed type), [String()]
    and [Kind()]. *)
Record Type_ : Type := mkType {
  Name : string;
  TypeString : string;
  TypeKind : Kind
}.

(** A [reflect.Value].  [strData] is read only when the kind is [String_],
    [intData] only when it is one of the signed integer kinds. *)
Record Value : Type := mkValue {
  typ : Type_;
  strData : string;
  intData : Z
}.

Definition ValueKind (v : Value) : Kind := TypeKind (typ v).

(** [Value.Type()] panics on the zero Value. *)
Definition TypeOf (v : Value) : Result Type_ :=
  match ValueKind v with
  | Invalid => Panic (PanicValueError "reflect.Value.Type" Invalid)
  | _ => Ok (typ v)
  end.

(** [Value.String()] never panics: for another kind it is ["<T Value>"]. *)
Definition StringOf (v : Value) : string :=
  match ValueKind v with
  | String_ => strData v
  | Invalid => "<invalid Value>"
  | _ => "<" +:+ TypeString (typ v) +:+ " Value>"
  end.

(** [Value.Int()] panics unless the kind is Int, Int8, Int16, Int32 or
    Int64. *)
Definition IntOf (v : Value) : Result Z :=
  match ValueKind v with
  | Int | Int8 | Int16 | Int32 | Int64 => Ok (intData v)
  | k => Panic (PanicValueError "reflect.Value.Int" k)
  end.

(** The predeclared type of a basic kind, named as the kind. *)
Definition basicType (k : Kind) : Type_ :=
  mkType (kindName k) (kindName k) k.

(** [reflect.ValueOf(s)] for a Go [string]. *)
Definition ValueOfString (s : string) : Value :=
  mkValue (basicType String_) s 0.

(** [reflect.ValueOf(i)] for a Go [int], [int8], ..., [int64], given by
    its kind. *)
Definition ValueOfInt (k : Kind) (i : Z) : Value :=
  mkValue (basicType k) "" i.

(** The zero Value, [reflect.ValueOf(nil)]. *)
Definition zeroValue : Value := mkValue (mkType "" "" Invalid) "" 0.

(** A [reflect.StructField]; [Tag] maps a tag key to its value, and
    [Tag.Get] of a missing key is the empty string. *)
Record StructField : Type := mkField {
  FieldName : string;
  FieldType : Type_;
  Tag : gmap string string
}.

Definition TagGet (f : StructField) (key : string) : string :=
  default "" (Tag f !! key).

(** The struct behind [obj]: its fields in declaration order, and the
    stored value of each ([FieldByName] of a missing name is the zero
    Value). *)
Record StructObj : Type := mkStruct {
  Fields : list StructField;
  Stored : gmap string Value
}.

Definition FieldByName (o : StructObj) (name : string) : Value :=
  default zeroValue (Stored o !! name).

End Reflect.
Import Reflect.

(** ** Failure flags and rule flags *)

Definition FailLenMin : Z := Z.shiftl 1 1.
Definition FailLenMax : Z := Z.shiftl 1 2.
Definition FailValMin : Z := Z.shiftl 1 3.
Definition FailValMax : Z := Z.shiftl 1 4.
Definition FailEmpty : Z := Z.shiftl 1 5.
Definition FailRegexp : Z := Z.shiftl 1 6.
Definition FailEmail : Z := Z.shiftl 1 7.
Definition FailZero : Z := Z.shiftl 1 8.

Definition ValMinNotNil : Z := Z.shiftl 1 1.
Definition ValMaxNotNil : Z := Z.shiftl 1 2.
Definition Required : Z := Z.shiftl 1 3.
Definition Email : Z := Z.shiftl 1 4.

Definition emailPattern : string :=
  "^[a-zA-Z0-9.!#$%&'*+\/=?^_`{|}~-]+@[a-zA-Z0-9](?:[a-zA-Z0-9-]{0,61}[a-zA-Z0-9])?(?:\.[a-zA-Z0-9](?:[a-zA-Z0-9-]{0,61}[a-zA-Z0-9])?)*$".

Section Validator.

Context `{engine : Regexp.Engine}.

(** ** The rule: [ValueValidation] *)

Record ValueValidation : Type := mkValidation {
  LenMin : Z;
  LenMax : Z;
  ValMin : Z;
  ValMax : Z;
  Regexp : option Regexp.Regexp;
  Flags : Z
}.

Definition NewValueValidation : ValueValidation :=
  mkValidation (-1) (-1) 0 0 None 0.

Definition setLenMin (v : ValueValidation) (i : Z) : ValueValidation :=
  mkValidation i (LenMax v) (ValMin v) (ValMax v) (Regexp v) (Flags v).
Definition setLenMax (v : ValueValidation) (i : Z) : ValueValidation :=
  mkValidation (LenMin v) i (ValMin v) (ValMax v) (Regexp v) (Flags v).
Definition setValMin (v : ValueValidation) (i : Z) : ValueValidation :=
  mkValidation (LenMin v) (LenMax v) i (ValMax v) (Regexp v) (Flags v).
Definition setValMax (v : ValueValidation) (i : Z) : ValueValidation :=
  mkValidation (LenMin v) (LenMax v) (ValMin v) i (Regexp v) (Flags v).
Definition setRegexp (v : ValueValidation) (re : Regexp.Regexp)
    : ValueValidation :=
  mkValidation (LenMin v) (LenMax v) (ValMin v) (ValMax v) (Some re) (Flags v).
(** [v.Flags = v.Flags | flag]. *)
Definition orFlags (v : ValueValidation) (flag : Z) : ValueValidation :=
  mkValidation (LenMin v) (LenMax v) (ValMin v) (ValMax v) (Regexp v)
    (Z.lor (Flags v) flag).

(** [v.Flags&flag > 0]. *)
Definition hasFlag (v : ValueValidation) (flag : Z) : bool :=
  0 <? Z.land (Flags v) flag.

(** ** The engine: [ValidateReflectValue]

    Each block of the method either returns [false] with one failure flag
    ([Some flag]) or falls through to the next block ([None]). *)

Definition len (s : string) : Z := Z.of_nat (String.length s).

(** The [if v.Flags&Required > 0] block. *)
Definition checkRequired (v : ValueValidation) (value : Value)
    (minCanBeZero maxCanBeZero : bool) : Result (option Z) :=
  if hasFlag v Required then
    let* t := TypeOf value in
    if String.eqb (Name t) "string" && String.eqb (StringOf value) "" then
      Ok (Some FailEmpty)
    else if Strings.HasPrefix (Name t) "int" then
      let* i := IntOf value in
      if (i =? 0) && negb minCanBeZero && negb maxCanBeZero
         && (ValMin v =? 0) && (ValMax v =? 0)
      then Ok (Some FailZero)
      else Ok None
    else Ok None
  else Ok None.

(** The [if value.Type().Name() == "string"] block. *)
Definition checkString (v : ValueValidation) (value : Value)
    : Result (option Z) :=
  let* t := TypeOf value in
  if String.eqb (Name t) "string" then
    let s := StringOf value in
    if (0 <? LenMin v) && (len s <? LenMin v) then Ok (Some FailLenMin)
    else if (0 <? LenMax v) && (LenMax v <? len s) then Ok (Some FailLenMax)
    else
      let mismatch :=
        match Regexp v with
        | Some re => negb (Regexp.MatchString re s)
        | None => false
        end in
      if mismatch then Ok (Some FailRegexp)
      else if hasFlag v Email then
        let* emailRegex := Regexp.MustCompile emailPattern in
        if negb (Regexp.MatchString emailRegex s) then Ok (Some FailEmail)
        else Ok None
      else Ok None
  else Ok None.

(** Go's [a && b] where [b] may panic: [b] is evaluated only when [a]
    holds. *)
Definition andAlso (a : bool) (b : Result bool) : Result bool :=
  if a then b else Ok false.

(** The [if strings.HasPrefix(value.Type().Name(), "int")] block. *)
Definition checkInt (v : ValueValidation) (value : Value)
    (minCanBeZero maxCanBeZero : bool) : Result (option Z) :=
  let* t := TypeOf value in
  if Strings.HasPrefix (Name t) "int" then
    let* belowMin :=
      andAlso (negb (ValMin v =? 0) || minCanBeZero)
        (let* i := IntOf value in Ok (i <? ValMin v)) in
    if belowMin then Ok (Some FailValMin)
    else
      let* aboveMax :=
        andAlso (negb (ValMax v =? 0) || maxCanBeZero)
          (let* i := IntOf value in Ok (ValMax v <? i)) in
      if aboveMax then Ok (Some FailValMax)
      else Ok None
  else Ok None.

(** Run a block; return its failure or go on with [rest]. *)
Definition orElse (block : Result (option Z)) (rest : Result (bool * Z))
    : Result (bool * Z) :=
  let* r := block in
  match r with
  | Some failureFlags => Ok (false, failureFlags)
  | None => rest
  end.

Definition ValidateReflectValue (v : ValueValidation) (value : Value)
    : Result (bool * Z) :=
  let minCanBeZero := hasFlag v ValMinNotNil in
  let maxCanBeZero := hasFlag v ValMaxNotNil in
  orElse (checkRequired v value minCanBeZero maxCanBeZero)
    (orElse (checkString v value)
       (orElse (checkInt v value minCanBeZero maxCanBeZero)
          (Ok (true, 0)))).

(** ** The parser: [setValidationFromTags] *)

Definition valOpts : list string :=
  ["lenmin"; "lenmax"; "valmin"; "valmax"; "regexp"].

(** [int64(i)] for an [int] of 64 bits. *)
Definition int64 (i : Z) : Z := i.

(** The [switch valOpt] statement. *)
Definition assignBound (v : ValueValidation) (valOpt : string) (i : Z)
    : ValueValidation :=
  if String.eqb valOpt "lenmin" then setLenMin v i
  else if String.eqb valOpt "lenmax" then setLenMax v i
  else if String.eqb valOpt "valmin" then
    let v := setValMin v (int64 i) in
    if i =? 0 then orFlags v ValMinNotNil else v
  else if String.eqb valOpt "valmax" then
    let v := setValMax v (int64 i) in
    if i =? 0 then orFlags v ValMaxNotNil else v
  else v.

(** The body of the loop over [valOpts], for the token [opt]. *)
Definition setValOpt (opt : string) (v : ValueValidation) (valOpt : string)
    : Result ValueValidation :=
  if Strings.HasPrefix opt (valOpt +:+ ":") then
    let val := Strings.Replace1 opt (valOpt +:+ ":") "" in
    if String.eqb valOpt "regexp" then
      let* re := Regexp.MustCompile val in
      Ok (setRegexp v re)
    else
      match Strconv.Atoi val with
      | None => Ok v
      | Some i => Ok (assignBound v valOpt i)
      end
  else Ok v.

(** The body of the loop over the tokens of the tag. *)
Definition setOpt (v : ValueValidation) (opt : string)
    : Result ValueValidation :=
  let v := if String.eqb opt "req" then orFlags v Required else v in
  let v := if String.eqb opt "email" then orFlags v Email else v in
  forRange (setValOpt opt) valOpts v.

Definition setValidationFromTags (v : ValueValidation)
    (tag tagRegexp : string) : Result ValueValidation :=
  let opts := Strings.SplitSpace tag in
  let* v := forRange setOpt opts v in
  if negb (String.eqb tagRegexp "") then
    let* re := Regexp.MustCompile tagRegexp in
    Ok (setRegexp v re)
  else Ok v.

(** ** Suffix inference: [setValidationFromSuffix] *)

Definition setValidationFromSuffix (v : ValueValidation)
    (field : StructField) : ValueValidation :=
  let v :=
    if Strings.HasSuffix (FieldName field) "Email" then orFlags v Email
    else v in
  if Strings.HasSuffix (FieldName field) "Price"
     && (ValMin v =? 0) && (ValMax v =? 0)
     && (Z.land (Flags v) ValMinNotNil =? 0)
     && (Z.land (Flags v) ValMaxNotNil =? 0)
  then orFlags (setValMin v 0) ValMinNotNil
  else v.

(** ** The orchestrator: [Validate] *)

Record ValidationOptions : Type := mkOptions {
  RestrictFields : gmap string bool;
  OverwriteFieldTags : gmap string (gmap string string);
  OverwriteTagName : string;
  ValidateWhenSuffix : bool;
  OverwriteFieldValues : gmap string Value
}.

Definition isInt (k : Kind) : bool :=
  match k with
  | Int64 | Int32 | Int16 | Int8 | Int
  | Uint64 | Uint32 | Uint16 | Uint8 | Uint => true
  | _ => false
  end.

Definition getFieldTagValues (field : StructField) (tagName : string)
    (overwriteFieldTags : gmap string (gmap string string))
    : string * string :=
  let tagVal := TagGet field tagName in
  let tagRegexpVal := TagGet field (tagName +:+ "_regexp") in
  match overwriteFieldTags !! FieldName field with
  | Some overwriteTags =>
      let tagVal :=
        match overwriteTags !! tagName with
        | Some overwriteTagVal => overwriteTagVal
        | None => tagVal
        end in
      let tagRegexpVal :=
        match overwriteTags !! (tagName +:+ "_regexp") with
        | Some overwriteTagVal => overwriteTagVal
        | None => tagRegexpVal
        end in
      (tagVal, tagRegexpVal)
  | None => (tagVal, tagRegexpVal)
  end.

(** The rule of one field: the tags parsed, then the suffix inference when
    the options ask for it. *)
Definition fieldValidation (options : ValidationOptions) (tagName : string)
    (field : StructField) : Result ValueValidation :=
  let validation := NewValueValidation in
  let '(tagVal, tagRegexpVal) :=
    getFieldTagValues field tagName (OverwriteFieldTags options) in
  let* validation := setValidationFromTags validation tagVal tagRegexpVal in
  Ok (if ValidateWhenSuffix options
      then setValidationFromSuffix validation field
      else validation).

(** The body of the loop over the fields; the state is [valid] and
    [invalidFields]. *)
Definition validateField (obj : StructObj) (options : ValidationOptions)
    (tagName : string) (st : bool * gmap string Z) (field : StructField)
    : Result (bool * gmap string Z) :=
  let fieldKind := TypeKind (FieldType field) in
  if (0 <? Z.of_nat (size (RestrictFields options)))
     && negb (default false (RestrictFields options !! FieldName field))
  then Ok st
  else if negb (isInt fieldKind) && negb (bool_decide (fieldKind = String_))
  then Ok st
  else
    let* validation := fieldValidation options tagName field in
    let fieldValue :=
      match OverwriteFieldValues options !! FieldName field with
      | Some overwriteVal => overwriteVal
      | None => FieldByName obj (FieldName field)
      end in
    let* r := ValidateReflectValue validation fieldValue in
    let '(ok, failureFlags) := r in
    if negb ok then Ok (false, <[FieldName field := failureFlags]> (snd st))
    else Ok st.

(** [options] is a pointer: [None] is [nil]. *)
Definition Validate (obj : StructObj) (options : option ValidationOptions)
    : Result (bool * gmap string Z) :=
  match options with
  | None => Panic (PanicMsg "ValidationOptions cannot be nil")
  | Some options =>
      let tagName :=
        if negb (String.eqb (OverwriteTagName options) "")
        then OverwriteTagName options else "validation" in
      forRange (validateField obj options tagName) (Fields obj) (true, ∅)
  end.

End Validator.

(** * The vocabulary of the properties *)

(** ** What the engine takes for a text value and for an integer value

    [ValidateReflectValue] tells the categories apart by the name of the
    value's type: ["string"] exactly, or a name that starts with ["int"]. *)

Definition TextTyped (value : Value) (s : string) : Prop :=
  TypeOf value = Ok (typ value)
  /\ Name (typ value) = "string"
  /\ StringOf value = s.

Definition IntTyped (value : Value) (i : Z) : Prop :=
  Strings.HasPrefix (Name (typ value)) "int" = true
  /\ IntOf value = Ok i.

Definition signedKind (k : Kind) : bool :=
  match k with
  | Int | Int8 | Int16 | Int32 | Int64 => true
  | _ => false
  end.

(** The verdict on an integer value: the required-zero test, then the
    minimum, then the maximum, the first failure being the result. *)
Definition intVerdict `{engine : Regexp.Engine} (v : ValueValidation) (i : Z)
    : bool * Z :=
  let minCanBeZero := hasFlag v ValMinNotNil in
  let maxCanBeZero := hasFlag v ValMaxNotNil in
  if hasFlag v Required && (i =? 0) && negb minCanBeZero
     && negb maxCanBeZero && (ValMin v =? 0) && (ValMax v =? 0)
  then (false, FailZero)
  else if (negb (ValMin v =? 0) || minCanBeZero) && (i <? ValMin v)
  then (false, FailValMin)
  else if (negb (ValMax v =? 0) || maxCanBeZero) && (ValMax v <? i)
  then (false, FailValMax)
  else (true, 0).

(** The verdict on a text value that is not both required and empty. *)
Definition textChecks `{engine : Regexp.Engine} (v : ValueValidation)
    (s : string) : Result (bool * Z) :=
  if (0 <? LenMin v) && (len s <? LenMin v) then Ok (false, FailLenMin)
  else if (0 <? LenMax v) && (LenMax v <? len s) then Ok (false, FailLenMax)
  else if match Regexp v with
          | Some re => negb (Regexp.MatchString re s)
          | None => false
          end
  then Ok (false, FailRegexp)
  else if hasFlag v Email then
    let* emailRegex := Regexp.MustCompile emailPattern in
    if negb (Regexp.MatchString emailRegex s) then Ok (false, FailEmail)
    else Ok (true, 0)
  else Ok (true, 0).

(** A numeric bound is set when it is non-zero or flagged as an explicit
    zero. *)
Definition minSet `{engine : Regexp.Engine} (v : ValueValidation) : bool :=
  negb (ValMin v =? 0) || hasFlag v ValMinNotNil.
Definition maxSet `{engine : Regexp.Engine} (v : ValueValidation) : bool :=
  negb (ValMax v =? 0) || hasFlag v ValMaxNotNil.

(** No numeric bound has been set: both bounds 0, neither flagged. *)
Definition noBound `{engine : Regexp.Engine} (v : ValueValidation) : bool :=
  (ValMin v =? 0) && (ValMax v =? 0)
  && negb (hasFlag v ValMinNotNil) && negb (hasFlag v ValMaxNotNil).

Definition failureCodes : list Z :=
  [FailLenMin; FailLenMax; FailValMin; FailValMax;
   FailEmpty; FailRegexp; FailEmail; FailZero].

(** A token of [SplitSpace] holds no space. *)
Fixpoint noSpace (s : string) : bool :=
  match s with
  | EmptyString => true
  | String c s' => negb (Ascii.eqb c " ") && noSpace s'
  end.

(** ** Tokens the parser drops *)

Definition numericOpts : list string :=
  ["lenmin"; "lenmax"; "valmin"; "valmax"].

Definition hasOptPrefix (opt valOpt : string) : bool :=
  Strings.HasPrefix opt (valOpt +:+ ":").

(** A token that is neither "req" nor "email" and starts with none of the
    five prefixes. *)
Definition unrecognized (opt : string) : bool :=
  negb (String.eqb opt "req") && negb (String.eqb opt "email")
  && negb (existsb (hasOptPrefix opt) valOpts).

(** A numeric token whose text after the prefix [strconv.Atoi] rejects. *)
Definition unparseable (opt : string) : bool :=
  existsb
    (fun valOpt =>
       hasOptPrefix opt valOpt
       && match Strconv.Atoi (Strings.Replace1 opt (valOpt +:+ ":") "") with
          | None => true
          | Some _ => false
          end)
    numericOpts.

Definition dropped (opt : string) : bool :=
  unrecognized opt || unparseable opt.

Definition kept (opt : string) : bool := negb (dropped opt).

(** The tag name [Validate] reads the rules from. *)
Definition tagNameOf `{engine : Regexp.Engine} (options : ValidationOptions)
    : string :=
  if negb (String.eqb (OverwriteTagName options) "")
  then OverwriteTagName options else "validation".

(** A field [Validate] does not skip: it passes the allow-list, and its kind
    is a string or integer kind. *)
Definition inScope `{engine : Regexp.Engine} (options : ValidationOptions)
    (field : StructField) : bool :=
  negb ((0 <? Z.of_nat (size (RestrictFields options)))
        && negb (default false (RestrictFields options !! FieldName field)))
  && (isInt (TypeKind (FieldType field))
      || bool_decide (TypeKind (FieldType field) = String_)).

(** The rule text has a regexp: token whose pattern does not compile, or the
    side-channel pattern text is non-empty and does not compile. *)
Definition malformed `{engine : Regexp.Engine} (tag tagRegexp : string) : Prop :=
  (exists p, In ("regexp:" +:+ p) (Strings.SplitSpace tag)
             /\ Regexp.Compile p = None)
  \/ (tagRegexp <> "" /\ Regexp.Compile tagRegexp = None).

(** ** An engine for examples

    It compiles the patterns made of letters and digits only, which match
    the strings that contain them, and rejects every other pattern. *)

Definition plainChar (c : ascii) : bool :=
  let n := nat_of_ascii c in
  ((48 <=? n) && (n <=? 57) || (65 <=? n) && (n <=? 90)
   || (97 <=? n) && (n <=? 122))%nat.

Fixpoint plain (s : string) : bool :=
  match s with
  | EmptyString => true
  | String c s' => plainChar c && plain s'
  end.

Fixpoint contains (s sub : string) : bool :=
  Strings.HasPrefix s sub
  || match s with
     | EmptyString => false
     | String _ s' => contains s' sub
     end.

Definition literalEngine : Regexp.Engine := {|
  Regexp.Regexp := string;
  Regexp.Compile p := if plain p then Some p else None;
  Regexp.MatchString re s := contains s re
|}.

(** A field [ListPrice int] with no tag, and options that switch the
    suffix inference on. *)
Definition ListPrice : StructField := mkField "ListPrice" (basicType Int) ∅.

Definition suffixOptions `{engine : Regexp.Engine} : ValidationOptions :=
  mkOptions ∅ ∅ "" true ∅.

(** The rule "regexp:abc req" parses into, from a fresh rule. *)
Definition abcThenRequired : ValueValidation (engine := literalEngine) :=
  orFlags (setRegexp (engine := literalEngine) NewValueValidation "abc")
    Required.

(** A field [Code string] whose rule text has a pattern that does not
    compile, and options that change nothing. *)
Definition Code : StructField :=
  mkField "Code" (basicType String_) {[ "validation" := "req regexp:(" ]}.

Definition noOptions `{engine : Regexp.Engine} : ValidationOptions :=
  mkOptions ∅ ∅ "" false ∅.

(** ** Values outside both categories, and the whole struct *)

(** A value the engine takes for neither text nor integer: its type is
    named neither ["string"] nor with the prefix ["int"]. *)
Definition Unchecked (value : Value) : Prop :=
  TypeOf value = Ok (typ value)
  /\ String.eqb (Name (typ value)) "string" = false
  /\ Strings.HasPrefix (Name (typ value)) "int" = false.

Definition unsignedKind (k : Kind) : bool :=
  match k with
  | Uint | Uint8 | Uint16 | Uint32 | Uint64 => true
  | _ => false
  end.

(** [reflect.ValueOf(u)] for a Go [uint], [uint8], ..., [uint64], given by
    its kind; [Value.Int()] does not read it. *)
Definition ValueOfUint (k : Kind) (u : Z) : Value :=
  mkValue (basicType k) "" u.

(** The flags a text value can come back with. *)
Definition textCodes : list Z :=
  [0; FailLenMin; FailLenMax; FailEmpty; FailRegexp; FailEmail].

(** The range of Go's [int64]. *)
Definition inInt64 (z : Z) : Prop := - 2 ^ 63 <= z <= 2 ^ 63 - 1.

Definition boundsInRange `{engine : Regexp.Engine} (v : ValueValidation)
    : Prop :=
  inInt64 (LenMin v) /\ inInt64 (LenMax v)
  /\ inInt64 (ValMin v) /\ inInt64 (ValMax v).

(** The rule text has the token [t]. *)
Definition hasToken (t tag : string) : bool :=
  existsb (String.eqb t) (Strings.SplitSpace tag).

(** The value [Validate] checks for a field: the override, or else the
    stored value. *)
Definition fieldValueOf `{engine : Regexp.Engine} (obj : StructObj)
    (options : ValidationOptions) (field : StructField) : Value :=
  match OverwriteFieldValues options !! FieldName field with
  | Some overwriteVal => overwriteVal
  | None => FieldByName obj (FieldName field)
  end.

(** The verdict of the engine on one field, under the rule [Validate]
    builds for it. *)
Definition fieldVerdict `{engine : Regexp.Engine} (obj : StructObj)
    (options : ValidationOptions) (field : StructField)
    : Result (bool * Z) :=
  let* validation := fieldValidation options (tagNameOf options) field in
  ValidateReflectValue validation (fieldValueOf obj options field).

(** The struct with the override values stored in it, and the options
    without them. *)
Definition storeOverrides `{engine : Regexp.Engine} (obj : StructObj)
    (options : ValidationOptions) : StructObj :=
  mkStruct (Fields obj) (OverwriteFieldValues options ∪ Stored obj).

Definition dropValueOverrides `{engine : Regexp.Engine}
    (options : ValidationOptions) : ValidationOptions :=
  mkOptions (RestrictFields options) (OverwriteFieldTags options)
    (OverwriteTagName options) (ValidateWhenSuffix options) ∅.

(** The struct without the fields [Validate] skips. *)
Definition keepInScope `{engine : Regexp.Engine} (obj : StructObj)
    (options : ValidationOptions) : StructObj :=
  mkStruct (List.filter (inScope options) (Fields obj)) (Stored obj).

(** A field with its tag overrides written into its tag, the struct whose
    fields are so rewritten, and the options without tag overrides. *)
Definition tagsWritten `{engine : Regexp.Engine}
    (options : ValidationOptions) (field : StructField) : StructField :=
  mkField (FieldName field) (FieldType field)
    (default ∅ (OverwriteFieldTags options !! FieldName field) ∪ Tag field).

Definition writeTagOverrides `{engine : Regexp.Engine} (obj : StructObj)
    (options : ValidationOptions) : StructObj :=
  mkStruct (List.map (tagsWritten options) (Fields obj)) (Stored obj).

Definition dropTagOverrides `{engine : Regexp.Engine}
    (options : ValidationOptions) : ValidationOptions :=
  mkOptions (RestrictFields options) ∅ (OverwriteTagName options)
    (ValidateWhenSuffix options) (OverwriteFieldValues options).

(** A value of the named type [type intensity uint8]: its name starts with
    "int" and its kind is not a signed integer kind. *)
Definition intensityValue (u : Z) : Value :=
  mkValue (mkType "intensity" "main.intensity" Uint8) "" u.

(** A field [ContactEmail string] with no tag. *)
Definition ContactEmail : StructField :=
  mkField "ContactEmail" (basicType String_) ∅.

(** A struct of one field [ListPrice int] that stores -5. *)
Definition negativePrice : StructObj :=
  mkStruct [ListPrice] {[ "ListPrice" := ValueOfInt Int (-5) ]}.

(** A value of the named type [type Age int]. *)
Definition ageValue (i : Z) : Value :=
  mkValue (mkType "Age" "main.Age" Int) "" i.

(** Case analysis over the blocks of [ValidateReflectValue]; [finish]
    closes the goal once the returned pair is known. *)
Ltac run_blocks value v finish :=
  repeat match goal with
    | |- Ok _ = Ok _ -> _ =>
        let H := fresh in intros H; injection H as <- <-; finish
    | |- Panic _ = Ok _ -> _ => discriminate
    | |- context [bind (Ok _) _] => cbn [bind]
    | |- context [bind (Panic _) _] => cbn [bind]
    | |- context [if ?b then _ else _] => destruct b
    | |- context [match Regexp v with Some _ => _ | None => _ end] =>
        destruct (Regexp v)
    | |- context [bind (IntOf value) _] => destruct (IntOf value)
    | |- context [bind (Regexp.MustCompile ?p) _] =>
        destruct (Regexp.MustCompile p)
    end.

(** * Properties *)

Lemma ValueOfString_TextTyped (s : string) : TextTyped (ValueOfString s) s.
Proof. repeat split. Qed.

Lemma ValueOfInt_IntTyped (k : Kind) (i : Z) :
  signedKind k = true -> IntTyped (ValueOfInt k i) i.
Proof. destruct k; intros H; try discriminate H; split; reflexivity. Qed.

Lemma IntTyped_TypeOf (value : Value) (i : Z) :
  IntTyped value i -> TypeOf value = Ok (typ value).
Proof.
  intros [_ H]. unfold IntOf, TypeOf in *.
  destruct (ValueKind value); try reflexivity; discriminate H.
Qed.

Lemma int_name_not_string (n : string) :
  Strings.HasPrefix n "int" = true -> String.eqb n "string" = false.
Proof.
  destruct n as [|c n]; [discriminate|].
  cbn [Strings.HasPrefix]. destruct (Ascii.eqb c "i") eqn:Hc; [|discriminate].
  apply Ascii.eqb_eq in Hc. subst c. reflexivity.
Qed.

Section Engine.

Context `{engine : Regexp.Engine}.

Lemma ValidateReflectValue_int (v : ValueValidation) (value : Value) (i : Z) :
  IntTyped value i ->
  ValidateReflectValue v value = Ok (intVerdict v i).
Proof.
  intros H. pose proof (IntTyped_TypeOf _ _ H) as Ht. destruct H as [Hp Hi].
  pose proof (int_name_not_string _ Hp) as Hs.
  unfold ValidateReflectValue, intVerdict, checkRequired, checkString,
    checkInt, orElse, andAlso.
  rewrite Ht. cbn [bind]. rewrite Hs, Hp, Hi. cbn [bind andb].
  destruct (hasFlag v Required); cbn [andb bind];
    destruct (i =? 0); cbn [andb];
    destruct (hasFlag v ValMinNotNil); destruct (hasFlag v ValMaxNotNil);
    destruct (ValMin v =? 0); destruct (ValMax v =? 0);
    cbn [andb orb negb bind];
    destruct (i <? ValMin v); destruct (ValMax v <? i); reflexivity.
Qed.

Lemma ValidateReflectValue_text (v : ValueValidation) (value : Value)
    (s : string) :
  TextTyped value s ->
  ValidateReflectValue v value =
    if hasFlag v Required && String.eqb s ""
    then Ok (false, FailEmpty)
    else textChecks v s.
Proof.
  intros (Ht & Hn & Hs).
  unfold ValidateReflectValue, textChecks, checkRequired, checkString,
    checkInt, orElse.
  rewrite Ht. cbn [bind]. rewrite Hn, Hs. cbn [String.eqb Ascii.eqb Bool.eqb
    Strings.HasPrefix andb].
  destruct (hasFlag v Required); cbn [andb bind];
    destruct (String.eqb s ""); cbn [bind]; try reflexivity;
    destruct ((0 <? LenMin v) && (len s <? LenMin v)); cbn [bind];
    try reflexivity;
    destruct ((0 <? LenMax v) && (LenMax v <? len s)); cbn [bind];
    try reflexivity;
    destruct (Regexp v) as [re|]; try destruct (Regexp.MatchString re s);
    cbn [negb bind]; try reflexivity;
    destruct (hasFlag v Email); cbn [bind]; try reflexivity;
    destruct (Regexp.MustCompile emailPattern) as [er|]; cbn [bind];
    try reflexivity;
    destruct (Regexp.MatchString er s); reflexivity.
Qed.

End Engine.

Section EngineClaims.

Context `{engine : Regexp.Engine}.

Lemma ValidateReflectValue_one_code (v : ValueValidation) (value : Value)
    (ok : bool) (f : Z) :
  ValidateReflectValue v value = Ok (ok, f) ->
  ok = (f =? 0) /\ In f (0 :: failureCodes).
Proof.
  unfold ValidateReflectValue, checkRequired, checkString, checkInt,
    orElse, andAlso.
  destruct (TypeOf value) as [t|p]; cbn [bind].
  2: { destruct (hasFlag v Required); cbn [bind]; discriminate. }
  run_blocks value v ltac:(split; [reflexivity|cbn; tauto]).
Qed.

Lemma intVerdict_cases (v : ValueValidation) (i : Z) :
  (intVerdict v i = (false, FailZero)
   /\ hasFlag v Required = true /\ i = 0
   /\ minSet v = false /\ maxSet v = false)
  \/ (intVerdict v i = (false, FailValMin)
      /\ minSet v = true /\ i < ValMin v)
  \/ (intVerdict v i = (false, FailValMax)
      /\ ~ (minSet v = true /\ i < ValMin v)
      /\ maxSet v = true /\ ValMax v < i)
  \/ (intVerdict v i = (true, 0)
      /\ ~ (minSet v = true /\ i < ValMin v)
      /\ ~ (maxSet v = true /\ ValMax v < i)).
Proof.
  unfold intVerdict, minSet, maxSet.
  destruct (hasFlag v Required), (hasFlag v ValMinNotNil),
    (hasFlag v ValMaxNotNil), (Z.eqb_spec i 0), (Z.eqb_spec (ValMin v) 0),
    (Z.eqb_spec (ValMax v) 0), (Z.ltb_spec i (ValMin v)),
    (Z.ltb_spec (ValMax v) i); cbn [andb orb negb];
    try (left; repeat split; (reflexivity || lia));
    try (right; left; repeat split; (reflexivity || lia));
    try (right; right; left; repeat split;
         (reflexivity || lia || (intros [? ?]; (discriminate || lia))));
    try (right; right; right; repeat split;
         (reflexivity || lia || (intros [? ?]; (discriminate || lia)))).
Qed.

(** C1, as amended: one call reports at most one failure code.  Whatever
    the value, a call that returns gives success with no flag or failure
    with exactly one of the eight flags.  For an integer value the call
    always returns, with no flag or one of ZERO, VAL_MIN, VAL_MAX: the
    minimum is tested before the maximum and its failure is returned
    alone, so VAL_MIN and VAL_MAX are never set together, not even when
    the value is below the minimum and above the maximum. *)
Theorem ValidateReflectValue_first_failure_alone
    (v : ValueValidation) (value : Value) (i : Z) :
  IntTyped value i ->
  (exists f,
      ValidateReflectValue v value = Ok (f =? 0, f)
      /\ In f [0; FailZero; FailValMin; FailValMax]
      /\ (Z.land f FailValMin = 0 \/ Z.land f FailValMax = 0)
      /\ (minSet v = true -> i < ValMin v -> f = FailValMin))
  /\ (forall (w : ValueValidation) (other : Value) (ok : bool) (f : Z),
        ValidateReflectValue w other = Ok (ok, f) ->
        ok = (f =? 0) /\ In f (0 :: failureCodes)).
Proof.
  intros H. split; [|intros w other; apply ValidateReflectValue_one_code].
  rewrite (ValidateReflectValue_int v value i H).
  destruct (intVerdict_cases v i)
    as [(-> & _ & _ & Hm & _)|[(-> & Hm & Hi)|[(-> & Hn & _)|(-> & Hn & _)]]].
  - exists FailZero. cbn. repeat split; try tauto. congruence.
  - exists FailValMin. cbn. repeat split; tauto.
  - exists FailValMax. cbn. repeat split; tauto.
  - exists 0. cbn. repeat split; tauto.
Qed.

(** C2: under a rule with the required flag, a text value that is the
    empty string fails with the single flag EMPTY, whatever the length
    bounds, the pattern and the email flag of the rule. *)
Theorem required_empty_text_fails_EMPTY_only
    (v : ValueValidation) (value : Value) :
  hasFlag v Required = true ->
  TextTyped value "" ->
  ValidateReflectValue v value = Ok (false, FailEmpty).
Proof.
  intros Hr Ht. rewrite (ValidateReflectValue_text v value "" Ht), Hr.
  reflexivity.
Qed.

(** C3: the integer value 0 under a rule with the required flag.  With no
    numeric bound set (both bounds 0, neither flagged as an explicit zero)
    it fails with ZERO.  With the minimum an explicit zero, and a maximum
    that is unset or not below 0, it passes with no flag.  Whenever a
    bound is set (explicit zero or non-zero) the result is not ZERO. *)
Theorem required_zero_and_its_rescue (v : ValueValidation) (value : Value) :
  hasFlag v Required = true ->
  IntTyped value 0 ->
  (minSet v = false -> maxSet v = false ->
   ValidateReflectValue v value = Ok (false, FailZero))
  /\ (hasFlag v ValMinNotNil = true -> ValMin v = 0 -> 0 <= ValMax v ->
      ValidateReflectValue v value = Ok (true, 0))
  /\ (minSet v = true \/ maxSet v = true ->
      exists ok f, ValidateReflectValue v value = Ok (ok, f)
                   /\ f <> FailZero).
Proof.
  intros Hr Hi. rewrite (ValidateReflectValue_int v value 0 Hi).
  destruct (intVerdict_cases v 0)
    as [(-> & _ & _ & Hm & HM)|[(-> & Hm & Hlt)|[(-> & Hn & HM & Hlt)
       |(E & Hn & Hx)]]];
    (split; [|split]).
  - reflexivity.
  - intros Hf. unfold minSet in Hm. rewrite Hf, orb_true_r in Hm.
    discriminate.
  - intros [?|?]; congruence.
  - congruence.
  - lia.
  - intros _. eexists _, _. split; [reflexivity|discriminate].
  - congruence.
  - lia.
  - intros _. eexists _, _. split; [reflexivity|discriminate].
  - intros Hm HM. revert E. unfold intVerdict.
    unfold minSet, maxSet in Hm, HM.
    apply orb_false_elim in Hm as [Hm1 Hm2].
    apply orb_false_elim in HM as [HM1 HM2].
    apply negb_false_iff in Hm1, HM1.
    rewrite Hr, Hm1, Hm2, HM1, HM2. discriminate.
  - intros _ _ _. now rewrite E.
  - intros _. rewrite E. eexists _, _. split; [reflexivity|discriminate].
Qed.

(** C4, as amended: with both numeric bounds set, an integer value below
    the minimum fails with VAL_MIN alone; VAL_MAX is reported exactly when
    the value is not below the minimum and is above the maximum; the value
    passes exactly when it is within the bounds.  (With the inverted
    bounds 10 and 5 the value 7 therefore fails with VAL_MIN.) *)
Theorem both_bounds_set_verdict
    (v : ValueValidation) (value : Value) (i : Z) :
  IntTyped value i ->
  minSet v = true ->
  maxSet v = true ->
  exists f,
    ValidateReflectValue v value = Ok (f =? 0, f)
    /\ (f = FailValMin <-> i < ValMin v)
    /\ (f = FailValMax <-> ValMin v <= i /\ ValMax v < i)
    /\ (f = 0 <-> ValMin v <= i <= ValMax v).
Proof.
  intros Hi Hm HM. rewrite (ValidateReflectValue_int v value i Hi).
  destruct (intVerdict_cases v i)
    as [(-> & _ & _ & Hm' & _)|[(-> & _ & Hlt)|[(-> & Hn & _ & Hlt)
       |(-> & Hn & Hx)]]]; [congruence|..];
    [exists FailValMin|exists FailValMax|exists 0];
    (split; [reflexivity|]); cbn;
    repeat split; intros; try discriminate; try lia; try tauto;
    try (destruct (Z.lt_ge_cases i (ValMin v)); [tauto|lia]).
  destruct (Z.lt_ge_cases i (ValMin v)); [tauto|].
  destruct (Z.lt_ge_cases (ValMax v) i); [tauto|lia].
Qed.

(** C10, as amended: under a rule with the required flag and a positive
    minimum, the integer value 0 fails with VAL_MIN, not ZERO; under any
    non-zero minimum the value 0 never fails with ZERO. *)
Theorem required_zero_below_positive_min
    (v : ValueValidation) (value : Value) :
  hasFlag v Required = true ->
  IntTyped value 0 ->
  (0 < ValMin v -> ValidateReflectValue v value = Ok (false, FailValMin))
  /\ (ValMin v <> 0 ->
      exists ok f, ValidateReflectValue v value = Ok (ok, f)
                   /\ f <> FailZero).
Proof.
  intros Hr Hi. rewrite (ValidateReflectValue_int v value 0 Hi).
  assert (Hset : ValMin v <> 0 -> minSet v = true).
  { intros Hz. unfold minSet. apply Z.eqb_neq in Hz. now rewrite Hz. }
  destruct (intVerdict_cases v 0)
    as [(-> & _ & _ & Hm & _)|[(-> & _ & Hlt)|[(-> & Hn & _)|(-> & Hn & _)]]];
    split; intros Hz;
    try reflexivity;
    try (eexists _, _; split; [reflexivity|discriminate]);
    try (specialize (Hset ltac:(lia)); congruence);
    try (exfalso; apply Hn; split; [apply Hset|]; lia).
Qed.

End EngineClaims.

(** ** The parser and the suffix inference *)

Lemma land_flag_zero (flags flag : Z) :
  0 <= flag -> (Z.land flags flag =? 0) = negb (0 <? Z.land flags flag).
Proof.
  intros Hf.
  assert (0 <= Z.land flags flag) by (apply Z.land_nonneg; lia).
  destruct (Z.eqb_spec (Z.land flags flag) 0),
    (Z.ltb_spec 0 (Z.land flags flag));
    cbn; (reflexivity || lia).
Qed.

Lemma Price_suffix_not_Email (name : string) :
  Strings.HasSuffix name "Price" = true ->
  Strings.HasSuffix name "Email" = false.
Proof.
  unfold Strings.HasSuffix. cbn [String.length].
  destruct (5 <=? String.length name)%nat; cbn [andb]; [|discriminate].
  intros H. apply String.eqb_eq in H. rewrite H. reflexivity.
Qed.

Section ParserClaims.

Context `{engine : Regexp.Engine}.

Lemma setValidationFromSuffix_Price (v : ValueValidation)
    (field : StructField) :
  Strings.HasSuffix (FieldName field) "Price" = true ->
  setValidationFromSuffix v field =
    if noBound v then orFlags (setValMin v 0) ValMinNotNil else v.
Proof.
  intros Hp. unfold setValidationFromSuffix, noBound, hasFlag.
  rewrite (Price_suffix_not_Email _ Hp), Hp.
  rewrite !land_flag_zero by (vm_compute; discriminate). reflexivity.
Qed.

Lemma empty_tag_parses (v : ValueValidation) :
  setValidationFromTags v "" "" = Ok v.
Proof. reflexivity. Qed.

(** C5: for a field whose name ends in "Price", the suffix inference sets
    the minimum to an explicit zero exactly when no numeric bound is set
    (both bounds 0 and neither flagged), and otherwise leaves the rule as
    it is.  [Validate] applies it to the rule the tags were parsed into, so
    a bound the rule text set is kept.  For such a field with empty tags
    and the inference switched on, the rule is the one parsed from
    "valmin:0": an integer value fails with VAL_MIN when it is negative and
    passes otherwise. *)
Theorem Price_suffix_fills_unset_minimum
    (v : ValueValidation) (field : StructField) :
  Strings.HasSuffix (FieldName field) "Price" = true ->
  setValidationFromSuffix v field =
    (if noBound v then orFlags (setValMin v 0) ValMinNotNil else v)
  /\ (forall (options : ValidationOptions)
             (tagName tagVal tagRegexpVal : string)
             (parsed : ValueValidation),
        ValidateWhenSuffix options = true ->
        getFieldTagValues field tagName (OverwriteFieldTags options)
          = (tagVal, tagRegexpVal) ->
        setValidationFromTags NewValueValidation tagVal tagRegexpVal
          = Ok parsed ->
        fieldValidation options tagName field =
          Ok (if noBound parsed
              then orFlags (setValMin parsed 0) ValMinNotNil
              else parsed))
  /\ (forall (options : ValidationOptions) (tagName : string),
        ValidateWhenSuffix options = true ->
        getFieldTagValues field tagName (OverwriteFieldTags options)
          = ("", "") ->
        exists rule,
          fieldValidation options tagName field = Ok rule
          /\ setValidationFromTags NewValueValidation "valmin:0" ""
               = Ok rule
          /\ forall (value : Value) (i : Z),
               IntTyped value i ->
               ValidateReflectValue rule value =
                 Ok (if i <? 0 then (false, FailValMin) else (true, 0))).
Proof.
  intros Hp. split; [now apply setValidationFromSuffix_Price|]. split.
  { intros options tagName tagVal tagRegexpVal parsed Hw Htags Hparse.
    unfold fieldValidation. rewrite Htags, Hparse. cbn [bind].
    now rewrite Hw, (setValidationFromSuffix_Price _ _ Hp). }
  intros options tagName Hw Htags.
  exists (orFlags (setValMin NewValueValidation 0) ValMinNotNil).
  split; [|split].
  - unfold fieldValidation. rewrite Htags, empty_tag_parses. cbn [bind].
    rewrite Hw, (setValidationFromSuffix_Price _ _ Hp). reflexivity.
  - reflexivity.
  - intros value i Hi. rewrite (ValidateReflectValue_int _ value i Hi).
    unfold intVerdict. cbn. rewrite andb_false_r. cbn.
    destruct (i <? 0); [reflexivity|]. now destruct i.
Qed.

(** C6: with a non-empty side-channel pattern text, the parse is the
    parse of the tokens alone followed by the compilation of that text,
    whose result replaces whatever pattern the tokens set; a rule that
    comes out of the parse always carries the pattern compiled from the
    side-channel text. *)
Theorem side_channel_pattern_overrides
    (v : ValueValidation) (tag tagRegexp : string) :
  tagRegexp <> "" ->
  (forall (v1 : ValueValidation) (re : Regexp.Regexp),
      setValidationFromTags v tag "" = Ok v1 ->
      Regexp.Compile tagRegexp = Some re ->
      setValidationFromTags v tag tagRegexp = Ok (setRegexp v1 re))
  /\ (forall v' : ValueValidation,
        setValidationFromTags v tag tagRegexp = Ok v' ->
        exists (v1 : ValueValidation) (re : Regexp.Regexp),
          setValidationFromTags v tag "" = Ok v1
          /\ Regexp.Compile tagRegexp = Some re
          /\ v' = setRegexp v1 re
          /\ Regexp v' = Some re).
Proof.
  intros Hne. apply String.eqb_neq in Hne.
  unfold setValidationFromTags. rewrite Hne. cbn [negb String.eqb].
  destruct (forRange setOpt (Strings.SplitSpace tag) v) as [v1|p];
    cbn [bind]; split.
  - intros v1' re [= <-] Hc. unfold Regexp.MustCompile. now rewrite Hc.
  - intros v'. unfold Regexp.MustCompile.
    destruct (Regexp.Compile tagRegexp) as [re|]; cbn [bind]; [|discriminate].
    intros [= <-]. now exists v1, re.
  - discriminate.
  - discriminate.
Qed.

End ParserClaims.

(** ** Strings: splitting and joining on spaces *)

Lemma HasPrefix_append (s p : string) :
  Strings.HasPrefix s p = true ->
  s = p +:+ Strings.drop (String.length p) s.
Proof.
  revert s. induction p as [|c p IH]; intros [|d s]; cbn; try discriminate;
    try reflexivity.
  destruct (Ascii.eqb_spec d c) as [->|]; [|discriminate].
  intros H. f_equal. now apply IH.
Qed.

Lemma SplitSpace_noSpace (s : string) :
  Forall (fun t => noSpace t = true) (Strings.SplitSpace s).
Proof.
  induction s as [|c s IH]; cbn.
  - repeat constructor.
  - destruct (Ascii.eqb c " ") eqn:Hc.
    + constructor; [reflexivity|exact IH].
    + destruct (Strings.SplitSpace s) as [|t ts].
      * repeat constructor. cbn. now rewrite Hc.
      * inversion IH as [|? ? Ht Hts]; subst. constructor; [|exact Hts].
        cbn. now rewrite Hc.
Qed.

Lemma SplitSpace_token (t : string) :
  noSpace t = true -> Strings.SplitSpace t = [t].
Proof.
  induction t as [|c t IH]; cbn; [reflexivity|].
  destruct (Ascii.eqb c " "); cbn; [discriminate|].
  intros H. now rewrite IH.
Qed.

Lemma SplitSpace_append (t r : string) :
  noSpace t = true ->
  Strings.SplitSpace (t +:+ String " " r) = t :: Strings.SplitSpace r.
Proof.
  induction t as [|c t IH]; cbn; [reflexivity|].
  destruct (Ascii.eqb c " "); cbn; [discriminate|].
  intros H. now rewrite IH.
Qed.

Lemma SplitSpace_JoinSpace (ts : list string) :
  ts <> [] ->
  Forall (fun t => noSpace t = true) ts ->
  Strings.SplitSpace (Strings.JoinSpace ts) = ts.
Proof.
  induction ts as [|t ts IH]; [congruence|].
  intros _ Hall. inversion Hall as [|? ? Ht Hts]; subst.
  destruct ts as [|u ts].
  - cbn. now apply SplitSpace_token.
  - change (Strings.JoinSpace (t :: u :: ts))
      with (t +:+ String " " (Strings.JoinSpace (u :: ts))).
    rewrite SplitSpace_append by exact Ht.
    f_equal. apply IH; [discriminate|exact Hts].
Qed.

Lemma forRange_panics_In {S A : Type} (body : S -> A -> Result S)
    (xs : list A) (x : A) :
  In x xs ->
  (forall s, panics (body s x)) ->
  forall s, panics (forRange body xs s).
Proof.
  intros Hin Hx. induction xs as [|y xs IH]; [destruct Hin|].
  intros s. cbn. destruct (body s y) as [s'|p] eqn:Hy; cbn.
  - destruct Hin as [->|Hin]; [|now apply IH].
    destruct (Hx s) as [p Hp]. congruence.
  - now exists p.
Qed.

Section DroppedTokens.

Context `{engine : Regexp.Engine}.

Lemma setOpt_dropped (v : ValueValidation) (opt : string) :
  dropped opt = true -> setOpt v opt = Ok v.
Proof.
  unfold dropped. intros H. apply orb_true_iff in H as [H|H].
  - unfold unrecognized in H.
    apply andb_true_iff in H as [H H3]. apply andb_true_iff in H as [H1 H2].
    apply negb_true_iff in H1, H2, H3. cbn [existsb valOpts] in H3.
    repeat (apply orb_false_elim in H3 as [? H3]).
    unfold hasOptPrefix in *.
    unfold setOpt, valOpts, forRange, setValOpt.
    rewrite H1, H2.
    repeat match goal with
           | Hp : Strings.HasPrefix opt _ = false |- _ => rewrite Hp; clear Hp
           end.
    reflexivity.
  - unfold unparseable in H. cbn [existsb numericOpts] in H.
    unfold hasOptPrefix in H.
    repeat (apply orb_true_iff in H as [H|H]); try discriminate H;
      apply andb_true_iff in H as [Hp Ha];
      pose proof (HasPrefix_append _ _ Hp) as Heq;
      cbn [String.length String.append] in Heq;
      match type of Heq with
      | opt = ?t => set (rest := Strings.drop _ opt) in Heq
      end;
      clearbody rest; subst opt; cbn in Ha |- *;
      destruct (Strconv.Atoi rest); (discriminate || reflexivity).
Qed.

Lemma forRange_setOpt_kept (opts : list string) (v : ValueValidation) :
  forRange setOpt opts v = forRange setOpt (List.filter kept opts) v.
Proof.
  revert v. induction opts as [|opt opts IH]; intros v; [reflexivity|].
  cbn [forRange List.filter]. unfold kept at 1.
  destruct (dropped opt) eqn:Hd; cbn [negb].
  - rewrite (setOpt_dropped v opt Hd). cbn [bind]. apply IH.
  - cbn [forRange]. destruct (setOpt v opt); cbn [bind]; [apply IH|reflexivity].
Qed.

(** C7: a token that is unrecognized, or that is a lenmin:, lenmax:,
    valmin: or valmax: token whose suffix [strconv.Atoi] rejects, leaves
    the rule as it is and never makes the parse fail; the parse of a rule
    text equals the parse of the text with those tokens removed. *)
Theorem dropped_tokens_are_ignored
    (v : ValueValidation) (tag tagRegexp : string) :
  (forall (w : ValueValidation) (opt : string),
      dropped opt = true -> setOpt w opt = Ok w)
  /\ setValidationFromTags v tag tagRegexp =
     setValidationFromTags v
       (Strings.JoinSpace (List.filter kept (Strings.SplitSpace tag)))
       tagRegexp.
Proof.
  split; [apply setOpt_dropped|].
  unfold setValidationFromTags. f_equal.
  rewrite forRange_setOpt_kept.
  destruct (List.filter kept (Strings.SplitSpace tag)) as [|t ts] eqn:Hf.
  - reflexivity.
  - rewrite SplitSpace_JoinSpace; [|discriminate|].
    + reflexivity.
    + assert (Hsub : forall o, In o (t :: ts) ->
                 In o (Strings.SplitSpace tag)).
      { intros o Ho. rewrite <- Hf in Ho. now apply filter_In in Ho as [Ho _]. }
      apply List.Forall_forall. intros o Ho.
      pose proof (SplitSpace_noSpace tag) as Hns.
      rewrite List.Forall_forall in Hns. apply Hns, Hsub, Ho.
Qed.

End DroppedTokens.

(** ** Malformed patterns and the nil options *)

Lemma digits_noSpace (s : string) (acc n : Z) :
  Strconv.digits acc s = Some n -> noSpace s = true.
Proof.
  revert acc. induction s as [|c s IH]; intros acc; cbn; [reflexivity|].
  destruct (Ascii.eqb_spec c " ") as [->|_]; [discriminate|].
  destruct (Strconv.digit c); [|discriminate]. apply IH.
Qed.

Lemma Atoi_noSpace (s : string) (n : Z) :
  Strconv.Atoi s = Some n -> noSpace s = true.
Proof.
  destruct s as [|c s]; [discriminate|]. unfold Strconv.Atoi.
  destruct (Ascii.eqb_spec c "-") as [->|_];
    [|destruct (Ascii.eqb_spec c "+") as [->|_]]; cbn [orb].
  - destruct s as [|d s]; [discriminate|].
    destruct (Strconv.digits 0 (String d s)) eqn:Hd; [|discriminate].
    intros _. apply digits_noSpace in Hd. exact Hd.
  - destruct s as [|d s]; [discriminate|].
    destruct (Strconv.digits 0 (String d s)) eqn:Hd; [|discriminate].
    intros _. apply digits_noSpace in Hd. exact Hd.
  - destruct (Strconv.digits 0 (String c s)) eqn:Hd; [|discriminate].
    intros _. now rewrite (digits_noSpace _ _ _ Hd).
Qed.

Section Fatal.

Context `{engine : Regexp.Engine}.

Lemma setOpt_regexp (v : ValueValidation) (p : string) :
  setOpt v ("regexp:" +:+ p) =
    let* re := Regexp.MustCompile p in Ok (setRegexp v re).
Proof.
  cbn. unfold setValOpt. cbn. destruct (Regexp.MustCompile p); reflexivity.
Qed.

Lemma setValidationFromTags_malformed (v : ValueValidation)
    (tag tagRegexp : string) :
  malformed tag tagRegexp -> panics (setValidationFromTags v tag tagRegexp).
Proof.
  unfold setValidationFromTags. intros [(p & Hin & Hc)|[Hne Hc]].
  - destruct (forRange_panics_In setOpt (Strings.SplitSpace tag) _ Hin)
      with (s := v) as [q Hq].
    + intros w. rewrite setOpt_regexp. unfold Regexp.MustCompile. rewrite Hc.
      now eexists.
    + rewrite Hq. now eexists.
  - destruct (forRange setOpt (Strings.SplitSpace tag) v); cbn [bind];
      [|now eexists].
    apply String.eqb_neq in Hne. rewrite Hne. cbn [negb].
    unfold Regexp.MustCompile. rewrite Hc. now eexists.
Qed.

Lemma validateField_panics (obj : StructObj) (options : ValidationOptions)
    (tagName : string) (field : StructField) (tagVal tagRegexpVal : string) :
  inScope options field = true ->
  getFieldTagValues field tagName (OverwriteFieldTags options)
    = (tagVal, tagRegexpVal) ->
  malformed tagVal tagRegexpVal ->
  forall st, panics (validateField obj options tagName st field).
Proof.
  intros Hs Ht Hm st. unfold inScope in Hs.
  apply andb_true_iff in Hs as [Hr Hk]. apply negb_true_iff in Hr.
  unfold validateField. rewrite Hr.
  replace (negb (isInt (TypeKind (FieldType field)))
           && negb (bool_decide (TypeKind (FieldType field) = String_)))
    with false
    by (destruct (isInt _), (bool_decide _); (reflexivity || discriminate)).
  unfold fieldValidation. rewrite Ht.
  destruct (setValidationFromTags_malformed NewValueValidation _ _ Hm)
    as [q Hq].
  rewrite Hq. now eexists.
Qed.

(** C8: [Validate] with nil options panics.  A rule text with a regexp:
    token whose pattern does not compile, or a non-empty side-channel
    pattern text that does not compile, makes the parse panic; and when a
    field that [Validate] does not skip has such tags, the whole call
    panics: it returns no verdict and no map of failures. *)
Theorem nil_options_and_bad_patterns_are_fatal (obj : StructObj) :
  Validate obj None = Panic (PanicMsg "ValidationOptions cannot be nil")
  /\ (forall (v : ValueValidation) (tag tagRegexp : string),
        malformed tag tagRegexp ->
        panics (setValidationFromTags v tag tagRegexp))
  /\ (forall (options : ValidationOptions) (field : StructField)
             (tagVal tagRegexpVal : string),
        In field (Fields obj) ->
        inScope options field = true ->
        getFieldTagValues field (tagNameOf options)
          (OverwriteFieldTags options) = (tagVal, tagRegexpVal) ->
        malformed tagVal tagRegexpVal ->
        panics (Validate obj (Some options))).
Proof.
  split; [reflexivity|]. split; [apply setValidationFromTags_malformed|].
  intros options field tagVal tagRegexpVal Hin Hs Ht Hm.
  apply (forRange_panics_In _ _ _ Hin).
  now apply validateField_panics with tagVal tagRegexpVal.
Qed.

End Fatal.

(** ** Length bounds that are zero or negative *)

Section LengthBounds.

Context `{engine : Regexp.Engine}.

Lemma LenMin_nonpositive (v : ValueValidation) (n : Z) (value : Value) :
  n <= 0 ->
  ValidateReflectValue (setLenMin v n) value
    = ValidateReflectValue (setLenMin v (-1)) value
  /\ forall ok f, ValidateReflectValue (setLenMin v n) value = Ok (ok, f) ->
                  f <> FailLenMin.
Proof.
  intros Hn.
  assert (H0 : (0 <? n) = false) by (apply Z.ltb_ge; lia).
  unfold ValidateReflectValue, checkRequired, checkString, checkInt,
    orElse, andAlso, hasFlag.
  cbn [LenMin LenMax ValMin ValMax Regexp Flags setLenMin].
  rewrite H0. change (0 <? -1) with false. cbn [andb].
  split; [reflexivity|]. intros ok f.
  destruct (TypeOf value) as [t|p]; cbn [bind].
  2: { destruct (0 <? Z.land (Flags v) Required); cbn [bind]; discriminate. }
  run_blocks value v ltac:(discriminate).
Qed.

Lemma LenMax_nonpositive (v : ValueValidation) (n : Z) (value : Value) :
  n <= 0 ->
  ValidateReflectValue (setLenMax v n) value
    = ValidateReflectValue (setLenMax v (-1)) value
  /\ forall ok f, ValidateReflectValue (setLenMax v n) value = Ok (ok, f) ->
                  f <> FailLenMax.
Proof.
  intros Hn.
  assert (H0 : (0 <? n) = false) by (apply Z.ltb_ge; lia).
  unfold ValidateReflectValue, checkRequired, checkString, checkInt,
    orElse, andAlso, hasFlag.
  cbn [LenMin LenMax ValMin ValMax Regexp Flags setLenMax].
  rewrite H0. change (0 <? -1) with false. cbn [andb].
  split; [reflexivity|]. intros ok f.
  destruct (TypeOf value) as [t|p]; cbn [bind].
  2: { destruct (0 <? Z.land (Flags v) Required); cbn [bind]; discriminate. }
  run_blocks value v ltac:(discriminate).
Qed.

Lemma parse_single_token (v : ValueValidation) (opt : string) :
  noSpace opt = true ->
  setValidationFromTags v opt "" = setOpt v opt.
Proof.
  intros H. unfold setValidationFromTags. rewrite (SplitSpace_token _ H).
  cbn [forRange]. destruct (setOpt v opt); reflexivity.
Qed.

(** C9: a lenmin: token whose integer is 0 or negative is parsed into the
    rule, but the engine applies a length bound only when it is greater
    than 0: the rule never yields LEN_MIN and gives, on every value, the
    verdict of the same rule with the bound unset (-1).  The same holds of
    lenmax: and LEN_MAX. *)
Theorem nonpositive_length_bound_not_enforced
    (v : ValueValidation) (s : string) (n : Z) :
  Strconv.Atoi s = Some n ->
  n <= 0 ->
  (setValidationFromTags v ("lenmin:" +:+ s) "" = Ok (setLenMin v n)
   /\ forall value : Value,
       ValidateReflectValue (setLenMin v n) value
         = ValidateReflectValue (setLenMin v (-1)) value
       /\ forall ok f,
           ValidateReflectValue (setLenMin v n) value = Ok (ok, f) ->
           f <> FailLenMin)
  /\ (setValidationFromTags v ("lenmax:" +:+ s) "" = Ok (setLenMax v n)
      /\ forall value : Value,
          ValidateReflectValue (setLenMax v n) value
            = ValidateReflectValue (setLenMax v (-1)) value
          /\ forall ok f,
              ValidateReflectValue (setLenMax v n) value = Ok (ok, f) ->
              f <> FailLenMax).
Proof.
  intros Ha Hn. pose proof (Atoi_noSpace _ _ Ha) as Hs.
  split; (split; [|intros value; now (apply LenMin_nonpositive
                                       || apply LenMax_nonpositive)]).
  - rewrite parse_single_token by exact Hs.
    cbn. unfold setValOpt. cbn. rewrite Ha. reflexivity.
  - rewrite parse_single_token by exact Hs.
    cbn. unfold setValOpt. cbn. rewrite Ha. reflexivity.
Qed.

End LengthBounds.

(** ** The claims on concrete inputs *)

(** C1, the claim as stated fails: under the bounds 10 and 5 the value 7 is
    below the minimum and above the maximum, yet the call returns VAL_MIN
    alone, which has no bit in common with VAL_MAX; and no call at all
    returns both bits. *)
Lemma both_bounds_violated_one_flag :
  (forall engine : Regexp.Engine,
      ValidateReflectValue (setValMax (setValMin NewValueValidation 10) 5)
        (ValueOfInt Int 7) = Ok (false, FailValMin))
  /\ (7 < 10 /\ 5 < 7)
  /\ Z.land FailValMin FailValMax = 0
  /\ (forall (engine : Regexp.Engine) (v : ValueValidation) (value : Value)
             (ok : bool) (f : Z),
         ValidateReflectValue v value = Ok (ok, f) ->
         ~ (Z.land f FailValMin <> 0 /\ Z.land f FailValMax <> 0)).
Proof.
  split; [reflexivity|]. split; [lia|]. split; [reflexivity|].
  intros engine v value ok f H.
  apply ValidateReflectValue_one_code in H as [_ Hin]. cbn in Hin.
  intros [H1 H2].
  repeat (destruct Hin as [<-|Hin]; [first [now apply H1 | now apply H2]|]).
  destruct Hin.
Qed.

Lemma first_failure_alone_witness :
  IntTyped (ValueOfInt Int 7) 7
  /\ exists f,
      ValidateReflectValue (engine := literalEngine)
        (setValMax (setValMin NewValueValidation 10) 5) (ValueOfInt Int 7)
        = Ok (f =? 0, f)
      /\ In f [0; FailZero; FailValMin; FailValMax]
      /\ (Z.land f FailValMin = 0 \/ Z.land f FailValMax = 0).
Proof.
  assert (H : IntTyped (ValueOfInt Int 7) 7) by (split; reflexivity).
  split; [exact H|].
  destruct (proj1 (ValidateReflectValue_first_failure_alone
                     (engine := literalEngine)
                     (setValMax (setValMin NewValueValidation 10) 5)
                     (ValueOfInt Int 7) 7 H))
    as (f & He & Hin & Hb & _).
  exists f. repeat split; assumption.
Defined.

Lemma required_empty_text_witness :
  let v := orFlags (orFlags (setLenMin (NewValueValidation
                                          (engine := literalEngine)) 5)
                      Email) Required in
  hasFlag v Required = true
  /\ TextTyped (ValueOfString "") ""
  /\ ValidateReflectValue v (ValueOfString "") = Ok (false, FailEmpty).
Proof.
  intros v.
  assert (Hr : hasFlag v Required = true) by reflexivity.
  assert (Ht : TextTyped (ValueOfString "") "") by (repeat split).
  split; [exact Hr|]. split; [exact Ht|].
  exact (required_empty_text_fails_EMPTY_only v (ValueOfString "") Hr Ht).
Defined.

Lemma required_zero_witness :
  let bare := orFlags (NewValueValidation (engine := literalEngine)) Required in
  let rescued := orFlags (orFlags (setValMin (NewValueValidation
                                               (engine := literalEngine)) 0)
                            ValMinNotNil) Required in
  IntTyped (ValueOfInt Int64 0) 0
  /\ hasFlag bare Required = true /\ hasFlag rescued Required = true
  /\ ValidateReflectValue bare (ValueOfInt Int64 0) = Ok (false, FailZero)
  /\ ValidateReflectValue rescued (ValueOfInt Int64 0) = Ok (true, 0).
Proof.
  intros bare rescued.
  assert (Hi : IntTyped (ValueOfInt Int64 0) 0) by (split; reflexivity).
  assert (Hb : hasFlag bare Required = true) by reflexivity.
  assert (Hr : hasFlag rescued Required = true) by reflexivity.
  split; [exact Hi|]. split; [exact Hb|]. split; [exact Hr|]. split.
  - apply (proj1 (required_zero_and_its_rescue bare _ Hb Hi)); reflexivity.
  - apply (proj1 (proj2 (required_zero_and_its_rescue rescued _ Hr Hi)));
      (reflexivity || lia).
Defined.

(** C4, the claim as stated fails: under the inverted bounds 10 and 5 the
    value 7 does fail, with VAL_MIN; and VAL_MAX is not reported although 7
    is above the maximum 5. *)
Lemma inverted_bounds_7_fails_VAL_MIN :
  (forall engine : Regexp.Engine,
      ValidateReflectValue (setValMax (setValMin NewValueValidation 10) 5)
        (ValueOfInt Int 7) = Ok (false, FailValMin))
  /\ FailValMin <> 0 /\ FailValMin <> FailValMax /\ 7 > 5.
Proof.
  split; [reflexivity|]. split; [discriminate|]. split; [discriminate|lia].
Qed.

Lemma both_bounds_set_witness :
  let v := setValMax (setValMin (NewValueValidation
                                   (engine := literalEngine)) 18) 150 in
  minSet v = true /\ maxSet v = true
  /\ ValidateReflectValue v (ValueOfInt Int 200) = Ok (false, FailValMax)
  /\ ValidateReflectValue v (ValueOfInt Int 10) = Ok (false, FailValMin)
  /\ ValidateReflectValue v (ValueOfInt Int 18) = Ok (true, 0).
Proof.
  intros v.
  assert (Hm : minSet v = true) by reflexivity.
  assert (HM : maxSet v = true) by reflexivity.
  assert (Hi : forall i, IntTyped (ValueOfInt Int i) i)
    by (intros i; split; reflexivity).
  split; [exact Hm|]. split; [exact HM|]. split; [|split].
  - destruct (both_bounds_set_verdict v _ 200 (Hi 200) Hm HM)
      as (f & -> & _ & [_ H] & _).
    rewrite H; [reflexivity|]. cbn. lia.
  - destruct (both_bounds_set_verdict v _ 10 (Hi 10) Hm HM)
      as (f & -> & [_ H] & _).
    rewrite H; [reflexivity|]. cbn. lia.
  - destruct (both_bounds_set_verdict v _ 18 (Hi 18) Hm HM)
      as (f & -> & _ & _ & [_ H]).
    rewrite H; [reflexivity|]. cbn. lia.
Defined.

Lemma Price_suffix_witness :
  Strings.HasSuffix (FieldName ListPrice) "Price" = true
  /\ setValidationFromSuffix (NewValueValidation (engine := literalEngine))
       ListPrice
     = orFlags (setValMin NewValueValidation 0) ValMinNotNil
  /\ setValidationFromSuffix
       (setValMax (NewValueValidation (engine := literalEngine)) 8000)
       ListPrice
     = setValMax NewValueValidation 8000
  /\ exists rule : ValueValidation (engine := literalEngine),
      fieldValidation (suffixOptions (engine := literalEngine)) "validation"
        ListPrice = Ok rule
      /\ ValidateReflectValue rule (ValueOfInt Int 0) = Ok (true, 0)
      /\ ValidateReflectValue rule (ValueOfInt Int (-5))
         = Ok (false, FailValMin).
Proof.
  assert (Hp : Strings.HasSuffix (FieldName ListPrice) "Price" = true)
    by reflexivity.
  split; [exact Hp|]. split; [|split].
  - exact (proj1 (Price_suffix_fills_unset_minimum
                    (engine := literalEngine) NewValueValidation ListPrice Hp)).
  - exact (proj1 (Price_suffix_fills_unset_minimum
                    (engine := literalEngine)
                    (setValMax NewValueValidation 8000) ListPrice Hp)).
  - destruct (proj2 (proj2 (Price_suffix_fills_unset_minimum
                              (engine := literalEngine) NewValueValidation
                              ListPrice Hp))
                (suffixOptions (engine := literalEngine)) "validation"
                eq_refl eq_refl)
      as (rule & Hf & _ & Hv).
    exists rule. split; [exact Hf|]. split.
    + apply (Hv (ValueOfInt Int 0) 0). split; reflexivity.
    + apply (Hv (ValueOfInt Int (-5)) (-5)). split; reflexivity.
Defined.

(** The same field through [Validate], whatever the engine. *)
Example Validate_ListPrice (engine : Regexp.Engine) :
  Validate (mkStruct [ListPrice] {[ "ListPrice" := ValueOfInt Int 0 ]})
    (Some suffixOptions) = Ok (true, ∅)
  /\ Validate (mkStruct [ListPrice] {[ "ListPrice" := ValueOfInt Int (-5) ]})
       (Some suffixOptions) = Ok (false, {[ "ListPrice" := FailValMin ]}).
Proof. split; vm_compute; reflexivity. Qed.

Lemma side_channel_pattern_witness :
  "xyz" <> ""
  /\ setValidationFromTags NewValueValidation "regexp:abc req" ""
     = Ok abcThenRequired
  /\ Regexp.Compile (Engine := literalEngine) "xyz" = Some "xyz"
  /\ setValidationFromTags NewValueValidation "regexp:abc req" "xyz"
     = Ok (setRegexp (engine := literalEngine) abcThenRequired "xyz").
Proof.
  assert (Hne : "xyz" <> "") by discriminate.
  assert (Hp : setValidationFromTags NewValueValidation "regexp:abc req" ""
               = Ok abcThenRequired) by reflexivity.
  assert (Hc : Regexp.Compile (Engine := literalEngine) "xyz" = Some "xyz")
    by reflexivity.
  split; [exact Hne|]. split; [exact Hp|]. split; [exact Hc|].
  exact (proj1 (side_channel_pattern_overrides
                  (engine := literalEngine) NewValueValidation
                  "regexp:abc req" "xyz" Hne)
           abcThenRequired "xyz" Hp Hc).
Defined.

Lemma dropped_tokens_witness :
  dropped "lenmin:x" = true /\ dropped "foo" = true /\ dropped "valmax:" = true
  /\ setOpt (NewValueValidation (engine := literalEngine)) "lenmin:x"
     = Ok NewValueValidation
  /\ setValidationFromTags (NewValueValidation (engine := literalEngine))
       "req lenmin:x foo valmax:7 valmin:9223372036854775808" ""
     = setValidationFromTags NewValueValidation "req valmax:7" "".
Proof.
  assert (Hd : dropped "lenmin:x" = true) by reflexivity.
  split; [exact Hd|]. split; [reflexivity|]. split; [reflexivity|]. split.
  - exact (proj1 (dropped_tokens_are_ignored
                    (engine := literalEngine) NewValueValidation "" "")
             NewValueValidation "lenmin:x" Hd).
  - exact (proj2 (dropped_tokens_are_ignored
                    (engine := literalEngine) NewValueValidation
                    "req lenmin:x foo valmax:7 valmin:9223372036854775808"
                    "")).
Defined.

Lemma bad_pattern_witness :
  let obj := mkStruct [Code] {[ "Code" := ValueOfString "A1" ]} in
  Regexp.Compile (Engine := literalEngine) "(" = None
  /\ malformed (engine := literalEngine) "req regexp:(" ""
  /\ malformed (engine := literalEngine) "req" "("
  /\ Validate (engine := literalEngine) obj None
     = Panic (PanicMsg "ValidationOptions cannot be nil")
  /\ panics (setValidationFromTags
               (NewValueValidation (engine := literalEngine)) "req" "(")
  /\ panics (Validate (engine := literalEngine) obj
               (Some (noOptions (engine := literalEngine)))).
Proof.
  intros obj.
  assert (Hc : Regexp.Compile (Engine := literalEngine) "(" = None)
    by reflexivity.
  assert (Ht : malformed (engine := literalEngine) "req regexp:(" "").
  { left. exists "(". split; [right; left; reflexivity|exact Hc]. }
  assert (Hs : malformed (engine := literalEngine) "req" "(").
  { right. split; [discriminate|exact Hc]. }
  pose proof (nil_options_and_bad_patterns_are_fatal
                (engine := literalEngine) obj) as (Hnil & Hparse & Hcall).
  split; [exact Hc|]. split; [exact Ht|]. split; [exact Hs|].
  split; [exact Hnil|]. split; [exact (Hparse _ _ _ Hs)|].
  apply (Hcall (noOptions (engine := literalEngine)) Code "req regexp:(" "").
  - left. reflexivity.
  - reflexivity.
  - reflexivity.
  - exact Ht.
Defined.

Lemma nonpositive_length_bound_witness :
  Strconv.Atoi "-3" = Some (-3) /\ -3 <= 0
  /\ setValidationFromTags (NewValueValidation (engine := literalEngine))
       "lenmin:-3" "" = Ok (setLenMin NewValueValidation (-3))
  /\ setValidationFromTags (NewValueValidation (engine := literalEngine))
       "lenmax:-3" "" = Ok (setLenMax NewValueValidation (-3))
  /\ ValidateReflectValue
       (setLenMin (NewValueValidation (engine := literalEngine)) (-3))
       (ValueOfString "")
     = ValidateReflectValue (NewValueValidation (engine := literalEngine))
         (ValueOfString "").
Proof.
  assert (Ha : Strconv.Atoi "-3" = Some (-3)) by reflexivity.
  assert (Hn : -3 <= 0) by lia.
  pose proof (nonpositive_length_bound_not_enforced
                (engine := literalEngine) NewValueValidation "-3" (-3) Ha Hn)
    as [[Hmin Hv] [Hmax _]].
  split; [exact Ha|]. split; [exact Hn|]. split; [exact Hmin|].
  split; [exact Hmax|]. exact (proj1 (Hv (ValueOfString ""))).
Defined.

(** C10, the claim as stated fails: under a rule with the required flag and
    the non-zero minimum -5, the value 0 passes with no flag. *)
Lemma required_zero_negative_min_passes :
  (forall engine : Regexp.Engine,
      ValidateReflectValue
        (orFlags (setValMin NewValueValidation (-5)) Required)
        (ValueOfInt Int 0) = Ok (true, 0))
  /\ -5 <> 0
  /\ (forall engine : Regexp.Engine,
         hasFlag (orFlags (setValMin NewValueValidation (-5)) Required)
           Required = true).
Proof. split; [reflexivity|]. split; [discriminate|reflexivity]. Qed.

Lemma required_zero_positive_min_witness :
  let v := orFlags (setValMin (NewValueValidation (engine := literalEngine)) 5)
             Required in
  hasFlag v Required = true
  /\ IntTyped (ValueOfInt Int 0) 0
  /\ 0 < ValMin v
  /\ ValidateReflectValue v (ValueOfInt Int 0) = Ok (false, FailValMin).
Proof.
  intros v.
  assert (Hr : hasFlag v Required = true) by reflexivity.
  assert (Hi : IntTyped (ValueOfInt Int 0) 0) by (split; reflexivity).
  assert (Hp : 0 < ValMin v) by reflexivity.
  split; [exact Hr|]. split; [exact Hi|]. split; [exact Hp|].
  exact (proj1 (required_zero_below_positive_min v _ Hr Hi) Hp).
Defined.

(** * Further properties of the engine *)

Section EngineMore.

Context `{engine : Regexp.Engine}.

(** X1: a value whose type is named neither "string" nor with the prefix
    "int" (an unsigned integer, a named type such as [type Age int]) passes
    under every rule: no check applies to it, not even the required one. *)
Theorem unchecked_value_always_passes (v : ValueValidation) (value : Value) :
  Unchecked value ->
  ValidateReflectValue v value = Ok (true, 0).
Proof.
  intros (Ht & Hs & Hi).
  unfold ValidateReflectValue, checkRequired, checkString, checkInt, orElse.
  rewrite Ht. cbn [bind]. rewrite Hs, Hi. cbn [andb].
  destruct (hasFlag v Required); reflexivity.
Qed.

(** X2: the zero Value makes the engine panic under every rule, in
    [Value.Type()]. *)
Theorem invalid_value_panics (v : ValueValidation) (value : Value) :
  ValueKind value = Invalid ->
  ValidateReflectValue v value
    = Panic (PanicValueError "reflect.Value.Type" Invalid).
Proof.
  intros Hk.
  unfold ValidateReflectValue, checkRequired, checkString, orElse, TypeOf.
  rewrite Hk. destruct (hasFlag v Required); reflexivity.
Qed.

(** X3: length checks on a text value that is not both required and empty.
    A positive minimum above the length gives LEN_MIN; otherwise a positive
    maximum below the length gives LEN_MAX; both whatever the pattern and
    the email flag, which are not consulted.  Conversely LEN_MIN and LEN_MAX
    come back in these cases only. *)
Theorem text_length_verdict (v : ValueValidation) (value : Value)
    (s : string) :
  TextTyped value s ->
  hasFlag v Required && String.eqb s "" = false ->
  (0 < LenMin v /\ len s < LenMin v ->
   ValidateReflectValue v value = Ok (false, FailLenMin))
  /\ (~ (0 < LenMin v /\ len s < LenMin v) ->
      0 < LenMax v /\ LenMax v < len s ->
      ValidateReflectValue v value = Ok (false, FailLenMax))
  /\ (forall ok f,
        ValidateReflectValue v value = Ok (ok, f) ->
        (f = FailLenMin <-> 0 < LenMin v /\ len s < LenMin v)
        /\ (f = FailLenMax <->
            ~ (0 < LenMin v /\ len s < LenMin v)
            /\ 0 < LenMax v /\ LenMax v < len s)).
Proof.
  intros Ht Hr. rewrite (ValidateReflectValue_text v value s Ht), Hr.
  unfold textChecks.
  destruct (Z.ltb_spec 0 (LenMin v)), (Z.ltb_spec (len s) (LenMin v)),
    (Z.ltb_spec 0 (LenMax v)), (Z.ltb_spec (LenMax v) (len s));
    cbn [andb];
    (split; [intros; (reflexivity || lia)|]);
    (split; [intros; (reflexivity || lia)|]);
    intros ok f;
    repeat match goal with
      | |- Ok _ = Ok _ -> _ =>
          let H := fresh in
          intros H; injection H as <- <-;
          split; split; intros; try discriminate; try lia; try reflexivity;
          try tauto
      | |- Panic _ = Ok _ -> _ => discriminate
      | |- context [bind (Ok _) _] => cbn [bind]
      | |- context [bind (Panic _) _] => cbn [bind]
      | |- context [if ?b then _ else _] => destruct b
      | |- context [match Regexp v with Some _ => _ | None => _ end] =>
          destruct (Regexp v)
      | |- context [bind (Regexp.MustCompile ?p) _] =>
          destruct (Regexp.MustCompile p)
      end.
Qed.

(** X4: a text value never panics the engine unless the rule has the email
    flag and the email pattern fails to compile, and it comes back with no
    flag or one of LEN_MIN, LEN_MAX, EMPTY, PATTERN, EMAIL: never with a
    numeric flag. *)
Theorem text_value_text_codes (v : ValueValidation) (value : Value)
    (s : string) :
  TextTyped value s ->
  hasFlag v Email = false
  \/ (exists re, Regexp.Compile emailPattern = Some re) ->
  exists f,
    ValidateReflectValue v value = Ok (f =? 0, f) /\ In f textCodes.
Proof.
  intros Ht He. rewrite (ValidateReflectValue_text v value s Ht).
  unfold textChecks, Regexp.MustCompile.
  destruct He as [He|[re He]]; rewrite He; cbn [bind];
    repeat match goal with
      | |- context [if ?b then _ else _] => destruct b
      | |- context [match Regexp v with Some _ => _ | None => _ end] =>
          destruct (Regexp v)
      | |- exists f, Ok (?b, ?c) = _ /\ _ =>
          exists c; split; [reflexivity|cbn; tauto]
      end.
Qed.

(** X5: the pattern is tested before the email flag.  On a text value that
    is not both required and empty and passes the length checks, a pattern
    that does not match gives PATTERN at once, whatever the email flag (the
    email pattern is not even compiled); with no pattern or a matching one,
    the email flag makes the verdict that of the email pattern. *)
Theorem pattern_before_email (v : ValueValidation) (value : Value)
    (s : string) :
  TextTyped value s ->
  hasFlag v Required && String.eqb s "" = false ->
  ~ (0 < LenMin v /\ len s < LenMin v) ->
  ~ (0 < LenMax v /\ LenMax v < len s) ->
  (forall re, Regexp v = Some re -> Regexp.MatchString re s = false ->
      ValidateReflectValue v value = Ok (false, FailRegexp))
  /\ ((Regexp v = None
       \/ exists re, Regexp v = Some re /\ Regexp.MatchString re s = true) ->
      (hasFlag v Email = false ->
       ValidateReflectValue v value = Ok (true, 0))
      /\ (forall er, hasFlag v Email = true ->
            Regexp.Compile emailPattern = Some er ->
            ValidateReflectValue v value =
              Ok (if Regexp.MatchString er s then (true, 0)
                  else (false, FailEmail)))).
Proof.
  intros Ht Hr Hmin Hmax.
  rewrite (ValidateReflectValue_text v value s Ht), Hr. unfold textChecks.
  replace ((0 <? LenMin v) && (len s <? LenMin v)) with false
    by (destruct (Z.ltb_spec 0 (LenMin v)),
          (Z.ltb_spec (len s) (LenMin v)); cbn; (reflexivity || tauto)).
  replace ((0 <? LenMax v) && (LenMax v <? len s)) with false
    by (destruct (Z.ltb_spec 0 (LenMax v)),
          (Z.ltb_spec (LenMax v) (len s)); cbn; (reflexivity || tauto)).
  split.
  - intros re -> ->. reflexivity.
  - intros Hp.
    assert (Hm : match Regexp v with
                 | Some re => negb (Regexp.MatchString re s)
                 | None => false
                 end = false).
    { destruct Hp as [->|(re & -> & ->)]; reflexivity. }
    rewrite Hm. split.
    + intros ->. reflexivity.
    + intros er -> Hc. unfold Regexp.MustCompile. rewrite Hc. cbn [bind].
      destruct (Regexp.MatchString er s); reflexivity.
Qed.

End EngineMore.

(** ** Flags as bits *)

Lemma land_pow2 (a n : Z) :
  0 <= n -> Z.land a (2 ^ n) = if Z.testbit a n then 2 ^ n else 0.
Proof.
  intros Hn. apply Z.bits_inj'. intros m Hm.
  rewrite Z.land_spec, Z.pow2_bits_eqb by exact Hn.
  destruct (Z.eqb_spec n m) as [->|Hne].
  - rewrite andb_true_r. destruct (Z.testbit a m) eqn:Ha.
    + now rewrite Z.pow2_bits_true.
    + now rewrite Z.bits_0.
  - rewrite andb_false_r. destruct (Z.testbit a n).
    + now rewrite Z.pow2_bits_false.
    + now rewrite Z.bits_0.
Qed.

Lemma hasFlag_testbit `{engine : Regexp.Engine} (v : ValueValidation)
    (n : Z) :
  0 <= n -> hasFlag v (2 ^ n) = Z.testbit (Flags v) n.
Proof.
  intros Hn. unfold hasFlag. rewrite land_pow2 by exact Hn.
  destruct (Z.testbit (Flags v) n); [|reflexivity].
  apply Z.ltb_lt. apply Z.pow_pos_nonneg; lia.
Qed.

Lemma hasFlag_orFlags_other `{engine : Regexp.Engine} (v : ValueValidation)
    (a b : Z) :
  Z.land a b = 0 -> hasFlag (orFlags v a) b = hasFlag v b.
Proof.
  intros H. unfold hasFlag, orFlags. cbn [Flags].
  now rewrite Z.land_lor_distr_l, H, Z.lor_0_r.
Qed.

Section RequiredFlag.

Context `{engine : Regexp.Engine}.

(** X6: the required flag changes the verdict only for the empty text and
    for the integer 0: on a text value that is not empty and on an integer
    value that is not 0, a rule and the same rule with the required flag
    added give the same result. *)
Theorem required_only_matters_for_empty_and_zero
    (v : ValueValidation) (value : Value) :
  (forall s, TextTyped value s -> s <> "" ->
      ValidateReflectValue (orFlags v Required) value
        = ValidateReflectValue v value)
  /\ (forall i, IntTyped value i -> i <> 0 ->
        ValidateReflectValue (orFlags v Required) value
          = ValidateReflectValue v value).
Proof.
  split.
  - intros s Ht Hs. apply String.eqb_neq in Hs.
    rewrite !(ValidateReflectValue_text _ value s Ht), Hs, !andb_false_r.
    unfold textChecks. cbn [LenMin LenMax Regexp orFlags].
    now rewrite (hasFlag_orFlags_other v Required Email).
  - intros i Hi Hz. apply Z.eqb_neq in Hz.
    rewrite !(ValidateReflectValue_int _ value i Hi).
    unfold intVerdict. cbn [ValMin ValMax orFlags].
    rewrite (hasFlag_orFlags_other v Required ValMinNotNil) by reflexivity.
    rewrite (hasFlag_orFlags_other v Required ValMaxNotNil) by reflexivity.
    rewrite Hz, !andb_false_r. reflexivity.
Qed.

End RequiredFlag.

(** * Further properties of the parser *)

Lemma SplitSpace_cons (s : string) :
  exists t ts, Strings.SplitSpace s = t :: ts.
Proof.
  destruct s as [|c s]; cbn; [now eexists _, _|].
  destruct (Ascii.eqb c " "); [now eexists _, _|].
  destruct (Strings.SplitSpace s); now eexists _, _.
Qed.

Lemma SplitSpace_space (t1 t2 : string) :
  Strings.SplitSpace (t1 +:+ String " " t2)
    = (Strings.SplitSpace t1 ++ Strings.SplitSpace t2)%list.
Proof.
  induction t1 as [|c t1 IH]; cbn; [reflexivity|].
  rewrite IH. destruct (Ascii.eqb c " "); [reflexivity|].
  destruct (SplitSpace_cons t1) as (t & ts & ->). reflexivity.
Qed.

Lemma forRange_app {S A : Type} (body : S -> A -> Result S)
    (xs ys : list A) (s : S) :
  forRange body (xs ++ ys)%list s
    = let* s' := forRange body xs s in forRange body ys s'.
Proof.
  revert s. induction xs as [|x xs IH]; intros s; cbn; [reflexivity|].
  destruct (body s x); cbn; [apply IH|reflexivity].
Qed.

Lemma forRange_invariant {S A : Type} (body : S -> A -> Result S)
    (P : S -> Prop) (xs : list A) :
  (forall s x s', In x xs -> body s x = Ok s' -> P s -> P s') ->
  forall s s', forRange body xs s = Ok s' -> P s -> P s'.
Proof.
  induction xs as [|x xs IH]; intros Hstep s s'; cbn.
  - now intros [= <-].
  - destruct (body s x) as [s1|p] eqn:Hb; cbn; [|discriminate].
    intros Hr Hs. apply (IH (fun s0 y s0' Hy => Hstep s0 y s0' (or_intror Hy))
                           s1 s' Hr).
    exact (Hstep s x s1 (or_introl eq_refl) Hb Hs).
Qed.

Lemma Atoi_inInt64 (s : string) (n : Z) :
  Strconv.Atoi s = Some n -> inInt64 n.
Proof.
  destruct s as [|c s]; [discriminate|]. unfold Strconv.Atoi.
  destruct (if (Ascii.eqb c "-" || Ascii.eqb c "+")%bool then s
            else String c s); [discriminate|].
  destruct (Strconv.digits 0 _) as [m|]; [|discriminate].
  cbv zeta.
  destruct (Z.leb_spec (- 2 ^ (Strconv.intSize - 1))
              (if Ascii.eqb c "-" then - m else m)); cbn [andb];
    [|discriminate].
  destruct (Z.leb_spec (if Ascii.eqb c "-" then - m else m)
              (2 ^ (Strconv.intSize - 1) - 1)); [|discriminate].
  intros [= <-]. split; assumption.
Qed.

Section ParserMore.

Context `{engine : Regexp.Engine}.

(** X7: rule texts compose: parsing two texts joined by a space is parsing
    the first into the rule and then the second into the result, the
    side-channel pattern being applied once, at the end. *)
Theorem parse_joined_texts (v : ValueValidation) (t1 t2 tagRegexp : string) :
  setValidationFromTags v (t1 +:+ String " " t2) tagRegexp
    = let* v1 := setValidationFromTags v t1 "" in
      setValidationFromTags v1 t2 tagRegexp.
Proof.
  unfold setValidationFromTags. rewrite SplitSpace_space, forRange_app.
  cbn [String.eqb negb].
  destruct (forRange setOpt (Strings.SplitSpace t1) v); reflexivity.
Qed.

(** X8: what a numeric token does.  When [strconv.Atoi] accepts the text
    after the prefix as [n]: lenmin: and lenmax: store [n] in their bound;
    valmin: and valmax: store [n] in theirs and set the explicit-zero flag
    of that bound exactly when [n] is 0.  Nothing else of the rule changes. *)
Theorem numeric_token_sets_its_bound (v : ValueValidation) (s : string)
    (n : Z) :
  Strconv.Atoi s = Some n ->
  setOpt v ("lenmin:" +:+ s) = Ok (setLenMin v n)
  /\ setOpt v ("lenmax:" +:+ s) = Ok (setLenMax v n)
  /\ setOpt v ("valmin:" +:+ s)
     = Ok (if n =? 0 then orFlags (setValMin v n) ValMinNotNil
           else setValMin v n)
  /\ setOpt v ("valmax:" +:+ s)
     = Ok (if n =? 0 then orFlags (setValMax v n) ValMaxNotNil
           else setValMax v n).
Proof.
  intros Ha.
  repeat split; cbn; unfold setValOpt; cbn; rewrite Ha; reflexivity.
Qed.

Lemma setValOpt_inRange (opt : string) (v v' : ValueValidation)
    (valOpt : string) :
  setValOpt opt v valOpt = Ok v' -> boundsInRange v -> boundsInRange v'.
Proof.
  unfold setValOpt. destruct (Strings.HasPrefix opt (valOpt +:+ ":")).
  2: { now intros [= <-]. }
  destruct (String.eqb valOpt "regexp").
  { destruct (Regexp.MustCompile _); cbn [bind]; [|discriminate].
    now intros [= <-]. }
  destruct (Strconv.Atoi _) as [i|] eqn:Ha. 2: { now intros [= <-]. }
  apply Atoi_inInt64 in Ha. intros [= <-] (H1 & H2 & H3 & H4).
  unfold assignBound, int64, boundsInRange.
  repeat match goal with
         | |- context [if ?b then _ else _] => destruct b
         end; cbn; unfold inInt64 in *; repeat split; lia.
Qed.

Lemma setOpt_inRange (v : ValueValidation) (opt : string)
    (v' : ValueValidation) :
  setOpt v opt = Ok v' -> boundsInRange v -> boundsInRange v'.
Proof.
  unfold setOpt. intros Hr Hv.
  refine (forRange_invariant (setValOpt opt) boundsInRange valOpts
            _ _ _ Hr _).
  - intros w x w' _. apply setValOpt_inRange.
  - destruct (String.eqb opt "req"), (String.eqb opt "email"); exact Hv.
Qed.

(** X9: every bound the parser stores fits Go's [int64] (and [int]): from
    a rule whose four bounds are in range, and so from a fresh rule, the
    parse yields a rule whose bounds are in range, and so does the rule
    [Validate] builds for a field, with or without the suffix inference. *)
Theorem parsed_bounds_fit_int64 :
  (forall (v v' : ValueValidation) (tag tagRegexp : string),
      setValidationFromTags v tag tagRegexp = Ok v' ->
      boundsInRange v -> boundsInRange v')
  /\ (forall (options : ValidationOptions) (tagName : string)
             (field : StructField) (rule : ValueValidation),
        fieldValidation options tagName field = Ok rule ->
        boundsInRange rule).
Proof.
  assert (Hparse : forall w w' t r,
             setValidationFromTags w t r = Ok w' ->
             boundsInRange w -> boundsInRange w').
  { intros w w' t r. unfold setValidationFromTags.
    destruct (forRange setOpt (Strings.SplitSpace t) w) as [w1|] eqn:Hl;
      cbn [bind]; [|discriminate].
    intros Hr Hw.
    assert (H1 : boundsInRange w1).
    { refine (forRange_invariant setOpt boundsInRange _ _ _ _ Hl Hw).
      intros a x a' _. apply setOpt_inRange. }
    destruct (negb (String.eqb r "")).
    - destruct (Regexp.MustCompile r); cbn [bind] in Hr; [|discriminate].
      injection Hr as <-. exact H1.
    - injection Hr as <-. exact H1. }
  split; [exact Hparse|].
  intros options tagName field rule. unfold fieldValidation.
  destruct (getFieldTagValues _ _ _) as [tagVal tagRegexpVal].
  destruct (setValidationFromTags NewValueValidation tagVal tagRegexpVal)
    as [w|] eqn:Hw; cbn [bind]; [|discriminate].
  assert (H0 : boundsInRange w).
  { apply (Hparse _ _ _ _ Hw). unfold boundsInRange, inInt64. cbn. lia. }
  intros [= <-]. destruct (ValidateWhenSuffix options); [|exact H0].
  unfold setValidationFromSuffix.
  destruct H0 as (H1 & H2 & H3 & H4).
  repeat match goal with
         | |- context [if ?b then _ else _] => destruct b
         end; unfold boundsInRange, inInt64 in *; cbn; repeat split; lia.
Qed.

Lemma setValOpt_Flags (opt : string) (v v' : ValueValidation)
    (valOpt : string) :
  setValOpt opt v valOpt = Ok v' ->
  Flags v' = Flags v
  \/ Flags v' = Z.lor (Flags v) ValMinNotNil
  \/ Flags v' = Z.lor (Flags v) ValMaxNotNil.
Proof.
  unfold setValOpt. destruct (Strings.HasPrefix opt (valOpt +:+ ":")).
  2: { intros [= <-]. now left. }
  destruct (String.eqb valOpt "regexp").
  { destruct (Regexp.MustCompile _); cbn [bind]; [|discriminate].
    intros [= <-]. now left. }
  destruct (Strconv.Atoi _) as [i|]. 2: { intros [= <-]. now left. }
  intros [= <-]. unfold assignBound.
  repeat match goal with
         | |- context [if ?b then _ else _] => destruct b
         end; cbn; tauto.
Qed.

Lemma setOpt_req_email (v : ValueValidation) (opt : string)
    (v' : ValueValidation) :
  setOpt v opt = Ok v' ->
  Z.testbit (Flags v') 3 = Z.testbit (Flags v) 3 || String.eqb "req" opt
  /\ Z.testbit (Flags v') 4 = Z.testbit (Flags v) 4 || String.eqb "email" opt.
Proof.
  unfold setOpt. intros Hr.
  rewrite (String.eqb_sym "req"), (String.eqb_sym "email").
  refine (forRange_invariant (setValOpt opt)
            (fun w => Z.testbit (Flags w) 3
                      = Z.testbit (Flags v) 3 || String.eqb opt "req"
                      /\ Z.testbit (Flags w) 4
                         = Z.testbit (Flags v) 4 || String.eqb opt "email")
            valOpts _ _ _ Hr _).
  - intros w x w' _ Hx [H3 H4].
    destruct (setValOpt_Flags _ _ _ _ Hx) as [E | [E | E]];
      rewrite E, ?Z.lor_spec; cbn; rewrite ?orb_false_r; now split.
  - destruct (String.eqb opt "req"), (String.eqb opt "email");
      cbn [Flags orFlags]; rewrite ?Z.lor_spec; cbn;
      rewrite ?orb_false_r, ?orb_true_r; now split.
Qed.

Lemma forRange_setOpt_req_email (opts : list string)
    (v v' : ValueValidation) :
  forRange setOpt opts v = Ok v' ->
  Z.testbit (Flags v') 3
    = Z.testbit (Flags v) 3 || existsb (String.eqb "req") opts
  /\ Z.testbit (Flags v') 4
     = Z.testbit (Flags v) 4 || existsb (String.eqb "email") opts.
Proof.
  revert v. induction opts as [|opt opts IH]; intros v;
    cbn [forRange existsb].
  - intros [= <-]. now rewrite !orb_false_r.
  - destruct (setOpt v opt) as [v1|] eqn:H1; cbn [bind]; [|discriminate].
    intros Hr. destruct (IH _ Hr) as [E3 E4].
    destruct (setOpt_req_email _ _ _ H1) as [F3 F4].
    rewrite E3, E4, F3, F4. now rewrite !orb_assoc.
Qed.

(** X10: after a parse the rule has the required flag exactly when it had
    it before or the rule text has the token "req", and the email flag
    exactly when it had it before or the text has the token "email": no
    other token sets or clears them. *)
Theorem required_and_email_flags_follow_tokens
    (v v' : ValueValidation) (tag tagRegexp : string) :
  setValidationFromTags v tag tagRegexp = Ok v' ->
  hasFlag v' Required = hasFlag v Required || hasToken "req" tag
  /\ hasFlag v' Email = hasFlag v Email || hasToken "email" tag.
Proof.
  unfold setValidationFromTags, hasToken.
  destruct (forRange setOpt (Strings.SplitSpace tag) v) as [v1|] eqn:Hl;
    cbn [bind]; [|discriminate].
  intros Hr.
  assert (Hf : Flags v' = Flags v1).
  { destruct (negb (String.eqb tagRegexp "")).
    - destruct (Regexp.MustCompile tagRegexp); cbn [bind] in Hr;
        [|discriminate]. now injection Hr as <-.
    - now injection Hr as <-. }
  destruct (forRange_setOpt_req_email _ _ _ Hl) as [H3 H4].
  change Required with (2 ^ 3). change Email with (2 ^ 4).
  rewrite !hasFlag_testbit by lia. rewrite Hf. now split.
Qed.

End ParserMore.

(** * Further properties of the suffix inference and of [Validate] *)

Lemma Email_suffix_not_Price (name : string) :
  Strings.HasSuffix name "Email" = true ->
  Strings.HasSuffix name "Price" = false.
Proof.
  unfold Strings.HasSuffix. cbn [String.length].
  destruct (5 <=? String.length name)%nat; cbn [andb]; [|discriminate].
  intros H. apply String.eqb_eq in H. rewrite H. reflexivity.
Qed.

Lemma forRange_ext {S A : Type} (f g : S -> A -> Result S) (xs : list A) :
  (forall s x, In x xs -> f s x = g s x) ->
  forall s, forRange f xs s = forRange g xs s.
Proof.
  induction xs as [|x xs IH]; intros H s; cbn; [reflexivity|].
  rewrite (H s x (or_introl eq_refl)).
  destruct (g s x); cbn; [|reflexivity].
  apply IH. intros s0 y Hy. apply H. now right.
Qed.

Lemma forRange_filter {S A : Type} (body : S -> A -> Result S)
    (keep : A -> bool) (xs : list A) :
  (forall s x, keep x = false -> body s x = Ok s) ->
  forall s, forRange body xs s = forRange body (List.filter keep xs) s.
Proof.
  intros H. induction xs as [|x xs IH]; intros s; cbn [forRange List.filter];
    [reflexivity|].
  destruct (keep x) eqn:Hk.
  - cbn [forRange]. destruct (body s x); cbn [bind]; [apply IH|reflexivity].
  - rewrite (H s x Hk). cbn [bind]. apply IH.
Qed.

Section ValidateMore.

Context `{engine : Regexp.Engine}.

(** X11: for a field whose name ends in "Email", the suffix inference adds
    the email flag and nothing else (such a name does not end in "Price").
    With empty tags and the inference switched on, the rule of the field is
    the one parsed from "email": a text value passes exactly when the email
    pattern matches it. *)
Theorem Email_suffix_sets_email_flag
    (v : ValueValidation) (field : StructField) :
  Strings.HasSuffix (FieldName field) "Email" = true ->
  setValidationFromSuffix v field = orFlags v Email
  /\ (forall (options : ValidationOptions) (tagName : string),
        ValidateWhenSuffix options = true ->
        getFieldTagValues field tagName (OverwriteFieldTags options)
          = ("", "") ->
        exists rule,
          fieldValidation options tagName field = Ok rule
          /\ setValidationFromTags NewValueValidation "email" "" = Ok rule
          /\ forall (er : Regexp.Regexp) (value : Value) (s : string),
               Regexp.Compile emailPattern = Some er ->
               TextTyped value s ->
               ValidateReflectValue rule value =
                 Ok (if Regexp.MatchString er s then (true, 0)
                     else (false, FailEmail))).
Proof.
  intros He.
  assert (Hs : forall w, setValidationFromSuffix w field = orFlags w Email).
  { intros w. unfold setValidationFromSuffix.
    now rewrite He, (Email_suffix_not_Price _ He). }
  split; [apply Hs|].
  intros options tagName Hw Htags. exists (orFlags NewValueValidation Email).
  split; [|split].
  - unfold fieldValidation. rewrite Htags, empty_tag_parses. cbn [bind].
    now rewrite Hw, Hs.
  - reflexivity.
  - intros er value s Hc Ht. rewrite (ValidateReflectValue_text _ value s Ht).
    unfold textChecks, Regexp.MustCompile. cbn. rewrite Hc. cbn [bind].
    destruct (Regexp.MatchString er s); reflexivity.
Qed.

Lemma validateField_skipped (obj : StructObj) (options : ValidationOptions)
    (tagName : string) (st : bool * gmap string Z) (field : StructField) :
  inScope options field = false ->
  validateField obj options tagName st field = Ok st.
Proof.
  unfold inScope, validateField. intros H.
  destruct ((0 <? Z.of_nat (size (RestrictFields options)))
            && negb (default false
                       (RestrictFields options !! FieldName field)));
    [reflexivity|].
  cbn [negb andb] in H. apply orb_false_elim in H as [-> ->]. reflexivity.
Qed.

(** X12: the fields [Validate] skips count for nothing: the call gives the
    result it gives on the struct without the fields that fail the
    allow-list or are neither of a string nor of an integer kind, whatever
    the tags of those fields (a pattern that does not compile included). *)
Theorem skipped_fields_count_for_nothing
    (obj : StructObj) (options : ValidationOptions) :
  Validate obj (Some options)
    = Validate (keepInScope obj options) (Some options).
Proof.
  unfold Validate, keepInScope. cbn [Fields].
  rewrite (forRange_filter _ (inScope options)).
  - reflexivity.
  - intros st field. apply validateField_skipped.
Qed.

(** X13: an override value stands for the stored value: the call gives the
    result it gives, without value overrides, on the struct in which each
    overridden field stores its override. *)
Theorem override_value_is_validated
    (obj : StructObj) (options : ValidationOptions) :
  Validate obj (Some options)
    = Validate (storeOverrides obj options)
        (Some (dropValueOverrides options)).
Proof.
  unfold Validate, storeOverrides, dropValueOverrides.
  cbn [Fields OverwriteTagName]. apply forRange_ext. intros st field _.
  unfold validateField, fieldValidation, FieldByName.
  cbn [RestrictFields OverwriteFieldTags ValidateWhenSuffix
       OverwriteFieldValues Stored].
  rewrite lookup_empty, lookup_union.
  destruct (OverwriteFieldValues options !! FieldName field) as [x|];
    destruct (Stored obj !! FieldName field); reflexivity.
Qed.

Lemma forRange_map {S A B : Type} (body : S -> B -> Result S) (g : A -> B)
    (xs : list A) (s : S) :
  forRange body (List.map g xs) s = forRange (fun s0 x => body s0 (g x)) xs s.
Proof.
  revert s. induction xs as [|x xs IH]; intros s; cbn; [reflexivity|].
  destruct (body s (g x)); cbn; [apply IH|reflexivity].
Qed.

Lemma getFieldTagValues_tagsWritten (options : ValidationOptions)
    (field : StructField) (tagName : string) :
  getFieldTagValues (tagsWritten options field) tagName ∅
    = getFieldTagValues field tagName (OverwriteFieldTags options).
Proof.
  unfold getFieldTagValues, tagsWritten, TagGet. cbn [FieldName Tag].
  rewrite lookup_empty, !lookup_union.
  destruct (OverwriteFieldTags options !! FieldName field) as [ot|];
    cbn [from_option id].
  - destruct (ot !! tagName), (ot !! (tagName +:+ "_regexp")),
      (Tag field !! tagName), (Tag field !! (tagName +:+ "_regexp"));
      reflexivity.
  - rewrite !lookup_empty.
    destruct (Tag field !! tagName), (Tag field !! (tagName +:+ "_regexp"));
      reflexivity.
Qed.

(** X14: tag overrides stand for the tags of the field: the call gives the
    result it gives, without tag overrides, on the struct in which the
    overridden tags of each field are written over its own; a tag that is
    not overridden keeps the value the field declares, the rule tag and the
    pattern tag independently. *)
Theorem override_tags_are_parsed
    (obj : StructObj) (options : ValidationOptions) :
  Validate obj (Some options)
    = Validate (writeTagOverrides obj options)
        (Some (dropTagOverrides options)).
Proof.
  unfold Validate, writeTagOverrides, dropTagOverrides.
  cbn [Fields OverwriteTagName]. rewrite forRange_map.
  apply forRange_ext. intros st field _.
  unfold validateField, fieldValidation, FieldByName.
  cbn [RestrictFields OverwriteFieldTags ValidateWhenSuffix
       OverwriteFieldValues Stored].
  rewrite getFieldTagValues_tagsWritten. reflexivity.
Qed.

Lemma validateField_inScope (obj : StructObj) (options : ValidationOptions)
    (st : bool * gmap string Z) (field : StructField) :
  inScope options field = true ->
  validateField obj options (tagNameOf options) st field
    = let* r := fieldVerdict obj options field in
      Ok (if fst r then st
          else (false, <[FieldName field := snd r]> (snd st))).
Proof.
  unfold inScope, validateField, fieldVerdict, fieldValueOf. intros H.
  apply andb_true_iff in H as [Hr Hk]. apply negb_true_iff in Hr.
  rewrite Hr.
  replace (negb (isInt (TypeKind (FieldType field)))
           && negb (bool_decide (TypeKind (FieldType field) = String_)))
    with false
    by (destruct (isInt _), (bool_decide _); (reflexivity || discriminate)).
  destruct (fieldValidation options (tagNameOf options) field) as [w|];
    cbn [bind]; [|reflexivity].
  destruct (ValidateReflectValue w _) as [[ok f]|]; cbn [bind];
    [|reflexivity].
  destruct ok; reflexivity.
Qed.

Lemma fieldVerdict_failure (obj : StructObj) (options : ValidationOptions)
    (field : StructField) (f : Z) :
  fieldVerdict obj options field = Ok (false, f) -> In f failureCodes.
Proof.
  unfold fieldVerdict.
  destruct (fieldValidation _ _ _) as [w|]; cbn [bind]; [|discriminate].
  intros H. apply ValidateReflectValue_one_code in H as [Hz Hin].
  destruct Hin as [<-|Hin]; [discriminate Hz|exact Hin].
Qed.

(** X15: what [Validate] returns.  The verdict is [true] exactly when the
    map of failures is empty; every entry of the map is one of the eight
    failure flags (never 0, never a combination), under the name of a field
    of the struct that the call does not skip. *)
Theorem Validate_result_shape (obj : StructObj)
    (options : ValidationOptions) (valid : bool) (m : gmap string Z) :
  Validate obj (Some options) = Ok (valid, m) ->
  (valid = true <-> m = ∅)
  /\ (forall k f, m !! k = Some f ->
        In f failureCodes
        /\ exists field, In field (Fields obj) /\ FieldName field = k
                         /\ inScope options field = true).
Proof.
  unfold Validate. fold (tagNameOf options). intros Hr.
  refine (forRange_invariant (validateField obj options (tagNameOf options))
            (fun st =>
               (fst st = true <-> snd st = ∅)
               /\ (forall k f, snd st !! k = Some f ->
                     In f failureCodes
                     /\ exists field, In field (Fields obj)
                                      /\ FieldName field = k
                                      /\ inScope options field = true))
            (Fields obj) _ (true, ∅) (valid, m) Hr _).
  - intros st field st' Hin Hstep [H1 H2].
    destruct (inScope options field) eqn:Hs.
    + rewrite (validateField_inScope _ _ _ _ Hs) in Hstep.
      destruct (fieldVerdict obj options field) as [[ok f]|] eqn:Hv;
        cbn [bind fst snd] in Hstep; [|discriminate].
      destruct ok; injection Hstep as <-; [now split|].
      cbn [fst snd]. split.
      * split; [discriminate|]. intros He.
        now apply insert_non_empty in He.
      * intros k g Hk. destruct (decide (FieldName field = k)) as [<-|Hne].
        -- rewrite lookup_insert_eq in Hk. injection Hk as <-.
           split; [exact (fieldVerdict_failure _ _ _ _ Hv)|].
           now exists field.
        -- rewrite lookup_insert_ne in Hk by exact Hne. now apply H2.
    + rewrite (validateField_skipped _ _ _ _ _ Hs) in Hstep.
      injection Hstep as <-. now split.
  - cbn. split; [tauto|]. intros k f Hk. now rewrite lookup_empty in Hk.
Qed.

Lemma forRange_validateField_lookup (obj : StructObj)
    (options : ValidationOptions) (fs : list StructField) :
  List.NoDup (List.map FieldName fs) ->
  forall st st',
    forRange (validateField obj options (tagNameOf options)) fs st = Ok st' ->
    (forall field, In field fs -> snd st !! FieldName field = None) ->
    (forall k, ~ In k (List.map FieldName fs) -> snd st' !! k = snd st !! k)
    /\ (forall field, In field fs -> inScope options field = true ->
          exists ok f,
            fieldVerdict obj options field = Ok (ok, f)
            /\ snd st' !! FieldName field = if ok then None else Some f).
Proof.
  induction fs as [|f0 fs IH]; intros Hnd st st'; cbn [forRange List.map].
  - intros [= <-] _. split; [reflexivity|intros ? []].
  - inversion Hnd as [|? ? Hnotin Hnd']; subst.
    destruct (validateField obj options (tagNameOf options) st f0)
      as [st1|] eqn:Hstep; cbn [bind]; [|discriminate].
    intros Hrest Hfresh.
    assert (Hother : forall k, k <> FieldName f0 ->
                       snd st1 !! k = snd st !! k).
    { intros k Hk. destruct (inScope options f0) eqn:Hs.
      - rewrite (validateField_inScope _ _ _ _ Hs) in Hstep.
        destruct (fieldVerdict obj options f0) as [[ok f]|];
          cbn [bind fst snd] in Hstep; [|discriminate].
        destruct ok; injection Hstep as <-; [reflexivity|].
        cbn [snd]. now rewrite lookup_insert_ne by congruence.
      - rewrite (validateField_skipped _ _ _ _ _ Hs) in Hstep.
        now injection Hstep as <-. }
    destruct (IH Hnd' st1 st' Hrest) as [Hkeep Hfields].
    { intros field Hin. rewrite Hother.
      - apply Hfresh. now right.
      - intros He. apply Hnotin. rewrite <- He. now apply in_map. }
    split.
    + intros k Hk. rewrite Hkeep, Hother; [reflexivity| |];
        intros He; apply Hk; [left; congruence|now right].
    + intros field [<-|Hin] Hs; [|now apply Hfields].
      rewrite (validateField_inScope _ _ _ _ Hs) in Hstep.
      destruct (fieldVerdict obj options f0) as [[ok f]|];
        cbn [bind fst snd] in Hstep; [|discriminate].
      exists ok, f. split; [reflexivity|]. rewrite (Hkeep _ Hnotin).
      destruct ok; injection Hstep as <-.
      * apply Hfresh. now left.
      * cbn [snd]. now rewrite lookup_insert_eq.
Qed.

(** X16: [Validate] aggregates the verdicts field by field.  For a struct
    whose field names are distinct, when the call returns: each field it
    does not skip has a verdict of the engine, under the rule built from its
    tags, on its override or stored value, and the map holds the flag of
    that verdict under the name of the field when the verdict is a failure,
    and nothing under that name when it is a success. *)
Theorem Validate_reports_each_field (obj : StructObj)
    (options : ValidationOptions) (valid : bool) (m : gmap string Z)
    (field : StructField) :
  List.NoDup (List.map FieldName (Fields obj)) ->
  Validate obj (Some options) = Ok (valid, m) ->
  In field (Fields obj) ->
  inScope options field = true ->
  exists ok f,
    fieldVerdict obj options field = Ok (ok, f)
    /\ m !! FieldName field = if ok then None else Some f.
Proof.
  intros Hnd Hr Hin Hs. unfold Validate in Hr. fold (tagNameOf options) in Hr.
  destruct (forRange_validateField_lookup obj options (Fields obj) Hnd
              (true, ∅) (valid, m) Hr) as [_ H].
  - intros f _. apply lookup_empty.
  - exact (H field Hin Hs).
Qed.

Lemma forRange_validateField_total (obj : StructObj)
    (options : ValidationOptions) (fs : list StructField) :
  (forall field, In field fs -> inScope options field = true ->
      exists r, fieldVerdict obj options field = Ok r) ->
  forall st, exists st',
    forRange (validateField obj options (tagNameOf options)) fs st = Ok st'.
Proof.
  induction fs as [|f0 fs IH]; intros H st; cbn [forRange];
    [now eexists|].
  assert (Hstep : exists st1,
             validateField obj options (tagNameOf options) st f0 = Ok st1).
  { destruct (inScope options f0) eqn:Hs.
    - rewrite (validateField_inScope _ _ _ _ Hs).
      destruct (H f0 (or_introl eq_refl) Hs) as [r ->]. cbn [bind].
      now eexists.
    - rewrite (validateField_skipped _ _ _ _ _ Hs). now eexists. }
  destruct Hstep as [st1 ->]. cbn [bind].
  apply IH. intros field Hin. apply H. now right.
Qed.

(** X17: [Validate] with options returns a result exactly when the engine
    and the parser panic on no field it does not skip; one such field whose
    rule or value makes them panic makes the whole call panic. *)
Theorem Validate_returns_iff_no_field_panics (obj : StructObj)
    (options : ValidationOptions) :
  (exists valid m, Validate obj (Some options) = Ok (valid, m))
  <-> (forall field, In field (Fields obj) ->
         inScope options field = true ->
         exists r, fieldVerdict obj options field = Ok r).
Proof.
  unfold Validate. fold (tagNameOf options). split.
  - intros (valid & m & Hr) field Hin Hs.
    destruct (fieldVerdict obj options field) as [r|p] eqn:Hv;
      [now exists r|].
    destruct (forRange_panics_In
                (validateField obj options (tagNameOf options))
                (Fields obj) field Hin) with (s := (true, ∅ : gmap string Z))
      as [q Hq].
    + intros st. rewrite (validateField_inScope _ _ _ _ Hs), Hv.
      now eexists.
    + congruence.
  - intros H.
    destruct (forRange_validateField_total obj options (Fields obj) H
                (true, ∅)) as [[valid m] Hr].
    now exists valid, m.
Qed.

End ValidateMore.

Section NamedIntegerTypes.

Context `{engine : Regexp.Engine}.

(** X18: a value whose type name starts with "int" but whose kind is not a
    signed integer kind (a named type such as [type intensity uint8]) makes
    the engine panic in [Value.Int()] as soon as the rule has the required
    flag or a numeric bound set; under any other rule it passes unchecked. *)
Theorem int_named_value_of_another_kind (v : ValueValidation)
    (value : Value) (p : PanicValue) :
  TypeOf value = Ok (typ value) ->
  Strings.HasPrefix (Name (typ value)) "int" = true ->
  IntOf value = Panic p ->
  ValidateReflectValue v value
    = if hasFlag v Required || minSet v || maxSet v then Panic p
      else Ok (true, 0).
Proof.
  intros Ht Hp Hi. pose proof (int_name_not_string _ Hp) as Hs.
  unfold ValidateReflectValue, checkRequired, checkString, checkInt, orElse,
    andAlso, minSet, maxSet.
  rewrite Ht. cbn [bind]. rewrite Hs, Hp, Hi. cbn [andb bind].
  destruct (hasFlag v Required), (ValMin v =? 0), (hasFlag v ValMinNotNil),
    (ValMax v =? 0), (hasFlag v ValMaxNotNil); reflexivity.
Qed.

End NamedIntegerTypes.

(** ** The further properties on concrete inputs *)

Section Examples.

#[local] Existing Instance literalEngine.

Lemma unchecked_value_witness :
  Unchecked (ValueOfUint Uint8 0) /\ Unchecked (ageValue 0)
  /\ ValidateReflectValue (orFlags NewValueValidation Required)
       (ValueOfUint Uint8 0) = Ok (true, 0)
  /\ ValidateReflectValue (setValMin NewValueValidation 18) (ageValue 0)
     = Ok (true, 0).
Proof.
  assert (Hu : Unchecked (ValueOfUint Uint8 0)) by (repeat split).
  assert (Ha : Unchecked (ageValue 0)) by (repeat split).
  split; [exact Hu|]. split; [exact Ha|]. split.
  - exact (unchecked_value_always_passes _ _ Hu).
  - exact (unchecked_value_always_passes _ _ Ha).
Defined.

Lemma invalid_value_witness :
  ValueKind zeroValue = Invalid
  /\ ValidateReflectValue NewValueValidation zeroValue
     = Panic (PanicValueError "reflect.Value.Type" Invalid).
Proof.
  assert (Hk : ValueKind zeroValue = Invalid) by reflexivity.
  split; [exact Hk|]. exact (invalid_value_panics _ _ Hk).
Defined.

Lemma text_length_witness :
  let v := orFlags (setLenMax (setLenMin NewValueValidation 5) 25) Required in
  TextTyped (ValueOfString "Bob") "Bob"
  /\ hasFlag v Required && String.eqb "Bob" "" = false
  /\ (0 < LenMin v /\ len "Bob" < LenMin v)
  /\ ValidateReflectValue v (ValueOfString "Bob") = Ok (false, FailLenMin).
Proof.
  intros v.
  assert (Ht : TextTyped (ValueOfString "Bob") "Bob") by (repeat split).
  assert (Hr : hasFlag v Required && String.eqb "Bob" "" = false)
    by reflexivity.
  assert (Hl : 0 < LenMin v /\ len "Bob" < LenMin v) by (split; reflexivity).
  split; [exact Ht|]. split; [exact Hr|]. split; [exact Hl|].
  exact (proj1 (text_length_verdict v _ "Bob" Ht Hr) Hl).
Defined.

Lemma text_codes_witness :
  let v := setLenMax NewValueValidation 2 in
  TextTyped (ValueOfString "Bob") "Bob"
  /\ hasFlag v Email = false
  /\ exists f,
      ValidateReflectValue v (ValueOfString "Bob") = Ok (f =? 0, f)
      /\ In f textCodes.
Proof.
  intros v.
  assert (Ht : TextTyped (ValueOfString "Bob") "Bob") by (repeat split).
  assert (He : hasFlag v Email = false) by reflexivity.
  split; [exact Ht|]. split; [exact He|].
  exact (text_value_text_codes v _ "Bob" Ht (or_introl He)).
Defined.

Lemma pattern_before_email_witness :
  let v := orFlags (setRegexp NewValueValidation "abc") Email in
  TextTyped (ValueOfString "xyz") "xyz"
  /\ hasFlag v Required && String.eqb "xyz" "" = false
  /\ Regexp.MatchString (Engine := literalEngine) "abc" "xyz" = false
  /\ ValidateReflectValue v (ValueOfString "xyz") = Ok (false, FailRegexp).
Proof.
  intros v.
  assert (Ht : TextTyped (ValueOfString "xyz") "xyz") by (repeat split).
  assert (Hr : hasFlag v Required && String.eqb "xyz" "" = false)
    by reflexivity.
  assert (Hm : Regexp.MatchString (Engine := literalEngine) "abc" "xyz"
               = false) by reflexivity.
  split; [exact Ht|]. split; [exact Hr|]. split; [exact Hm|].
  refine (proj1 (pattern_before_email v _ "xyz" Ht Hr _ _) "abc" eq_refl Hm);
    cbn; lia.
Defined.

Lemma required_only_witness :
  TextTyped (ValueOfString "Bob") "Bob" /\ "Bob" <> ""
  /\ ValidateReflectValue
       (orFlags (setLenMin NewValueValidation 5) Required)
       (ValueOfString "Bob")
     = ValidateReflectValue (setLenMin NewValueValidation 5)
         (ValueOfString "Bob").
Proof.
  assert (Ht : TextTyped (ValueOfString "Bob") "Bob") by (repeat split).
  assert (Hn : "Bob" <> "") by discriminate.
  split; [exact Ht|]. split; [exact Hn|].
  exact (proj1 (required_only_matters_for_empty_and_zero
                  (setLenMin NewValueValidation 5) (ValueOfString "Bob"))
           "Bob" Ht Hn).
Defined.

Lemma numeric_token_witness :
  Strconv.Atoi "0" = Some 0
  /\ setOpt NewValueValidation "valmin:0"
     = Ok (orFlags (setValMin NewValueValidation 0) ValMinNotNil)
  /\ setOpt NewValueValidation "lenmax:0" = Ok (setLenMax NewValueValidation 0).
Proof.
  assert (Ha : Strconv.Atoi "0" = Some 0) by reflexivity.
  pose proof (numeric_token_sets_its_bound NewValueValidation "0" 0 Ha)
    as (_ & Hmax & Hmin & _).
  split; [exact Ha|]. split; [exact Hmin|exact Hmax].
Defined.

Lemma parsed_bounds_witness :
  boundsInRange NewValueValidation
  /\ setValidationFromTags NewValueValidation "valmax:150 lenmin:2" ""
     = Ok (setLenMin (setValMax NewValueValidation 150) 2)
  /\ boundsInRange (setLenMin (setValMax NewValueValidation 150) 2).
Proof.
  assert (H0 : boundsInRange NewValueValidation)
    by (unfold boundsInRange, inInt64; cbn; lia).
  assert (Hp : setValidationFromTags NewValueValidation
                 "valmax:150 lenmin:2" ""
               = Ok (setLenMin (setValMax NewValueValidation 150) 2))
    by reflexivity.
  split; [exact H0|]. split; [exact Hp|].
  exact (proj1 parsed_bounds_fit_int64 _ _ _ _ Hp H0).
Defined.

Lemma flags_follow_tokens_witness :
  setValidationFromTags NewValueValidation "lenmin:3 req" ""
    = Ok (orFlags (setLenMin NewValueValidation 3) Required)
  /\ hasFlag (orFlags (setLenMin NewValueValidation 3) Required) Required
     = hasFlag NewValueValidation Required || hasToken "req" "lenmin:3 req"
  /\ hasToken "req" "lenmin:3 req" = true
  /\ hasToken "email" "lenmin:3 req" = false.
Proof.
  assert (Hp : setValidationFromTags NewValueValidation "lenmin:3 req" ""
               = Ok (orFlags (setLenMin NewValueValidation 3) Required))
    by reflexivity.
  split; [exact Hp|]. split; [|split; reflexivity].
  exact (proj1 (required_and_email_flags_follow_tokens _ _ _ _ Hp)).
Defined.

Lemma Email_suffix_witness :
  Strings.HasSuffix (FieldName ContactEmail) "Email" = true
  /\ setValidationFromSuffix (setValMin NewValueValidation 3) ContactEmail
     = orFlags (setValMin NewValueValidation 3) Email.
Proof.
  assert (He : Strings.HasSuffix (FieldName ContactEmail) "Email" = true)
    by reflexivity.
  split; [exact He|].
  exact (proj1 (Email_suffix_sets_email_flag _ ContactEmail He)).
Defined.

Lemma Validate_result_witness :
  Validate negativePrice (Some suffixOptions)
    = Ok (false, {[ "ListPrice" := FailValMin ]})
  /\ (false = true <-> ({[ "ListPrice" := FailValMin ]} : gmap string Z) = ∅).
Proof.
  assert (Hr : Validate negativePrice (Some suffixOptions)
               = Ok (false, {[ "ListPrice" := FailValMin ]}))
    by (vm_compute; reflexivity).
  split; [exact Hr|].
  exact (proj1 (Validate_result_shape _ _ _ _ Hr)).
Defined.

Lemma Validate_each_field_witness :
  List.NoDup (List.map FieldName (Fields negativePrice))
  /\ Validate negativePrice (Some suffixOptions)
     = Ok (false, {[ "ListPrice" := FailValMin ]})
  /\ In ListPrice (Fields negativePrice)
  /\ inScope suffixOptions ListPrice = true
  /\ exists ok f,
      fieldVerdict negativePrice suffixOptions ListPrice = Ok (ok, f)
      /\ ({[ "ListPrice" := FailValMin ]} : gmap string Z)
           !! FieldName ListPrice
         = if ok then None else Some f.
Proof.
  assert (Hnd : List.NoDup (List.map FieldName (Fields negativePrice)))
    by (repeat constructor; intros []).
  assert (Hr : Validate negativePrice (Some suffixOptions)
               = Ok (false, {[ "ListPrice" := FailValMin ]}))
    by (vm_compute; reflexivity).
  assert (Hin : In ListPrice (Fields negativePrice)) by (left; reflexivity).
  assert (Hs : inScope suffixOptions ListPrice = true) by reflexivity.
  split; [exact Hnd|]. split; [exact Hr|]. split; [exact Hin|].
  split; [exact Hs|].
  exact (Validate_reports_each_field _ _ _ _ _ Hnd Hr Hin Hs).
Defined.

Lemma int_named_value_witness :
  let p := PanicValueError "reflect.Value.Int" Uint8 in
  TypeOf (intensityValue 200) = Ok (typ (intensityValue 200))
  /\ Strings.HasPrefix (Name (typ (intensityValue 200))) "int" = true
  /\ IntOf (intensityValue 200) = Panic p
  /\ ValidateReflectValue (setValMax NewValueValidation 100)
       (intensityValue 200) = Panic p
  /\ ValidateReflectValue (setLenMax NewValueValidation 100)
       (intensityValue 200) = Ok (true, 0).
Proof.
  intros p.
  assert (Ht : TypeOf (intensityValue 200) = Ok (typ (intensityValue 200)))
    by reflexivity.
  assert (Hp : Strings.HasPrefix (Name (typ (intensityValue 200))) "int"
               = true) by reflexivity.
  assert (Hi : IntOf (intensityValue 200) = Panic p) by reflexivity.
  split; [exact Ht|]. split; [exact Hp|]. split; [exact Hi|]. split.
  - exact (int_named_value_of_another_kind
             (setValMax NewValueValidation 100) _ p Ht Hp Hi).
  - exact (int_named_value_of_another_kind
             (setLenMax NewValueValidation 100) _ p Ht Hp Hi).
Defined.

End Examples.
